(** * Biomechanics Tutor: the session logic of [app.py]

    A shallow embedding of the server function of the Shiny application:
    the dataset, the reactive values, the observers of the section,
    question, option and answer inputs, and the render function that
    builds and shuffles the option cards of the current step.

    Conventions of the embedding.
    - A text cell of the data frame is [Some s], a missing cell (NaN) is
      [None].  Text is ASCII.
    - A cell of the [section] column is a text or, when [read_csv] read
      the column as numbers, a number; a number is equal to no text.
    - A cell of [min_value] or [max_value] is what [float] makes of it: a
      number, or a text that [float] rejects.
    - A Python number (an [int] or a [float]) is an exact rational, an
      infinity or NaN: Python compares ints and floats by their exact
      values, and every comparison with NaN is false.
    - [correct_option] is a nullable integer: [None] is [pd.NA].
    - An observer is a computation over the reactive values that either
      finishes or raises a Python exception. *)

From Stdlib Require Import ZArith QArith Lqa String Ascii List Bool Lia Permutation.
From stdpp Require Import base decidable list strings.

Open Scope string_scope.
Open Scope nat_scope.

(** ** Python values *)

(** A cell of a text column. *)
Definition cell : Type := option string.

(** A Python number as far as [<=] can see it. *)
Inductive pynum : Type :=
  | Fin (q : Q)
  | PInf
  | NInf
  | NaN.

(** [a <= b] on Python numbers. *)
Definition py_le (a b : pynum) : bool :=
  match a, b with
  | NaN, _ | _, NaN => false
  | NInf, _ => true
  | _, PInf => true
  | Fin x, Fin y => Qle_bool x y
  | _, _ => false
  end.

(** The result of a comparison that involves [pd.NA]. *)
Inductive na_bool : Type :=
  | PyTrue
  | PyFalse
  | PdNA.

(** [k == c] for an int [k] and a nullable integer [c]. *)
Definition na_eq (k : nat) (c : option Z) : na_bool :=
  match c with
  | None => PdNA
  | Some z => if (Z.of_nat k =? z)%Z then PyTrue else PyFalse
  end.

Inductive exn : Type :=
  | TypeError (msg : string)
  | IndexError (msg : string)
  | KeyError (msg : string)
  | ValueError (msg : string).

Inductive outcome (A : Type) : Type :=
  | Ok (a : A)
  | Raise (e : exn).
Arguments Ok {A} a.
Arguments Raise {A} e.

(** [bool(x)]: the truth value of [pd.NA] is an error. *)
Definition truth (b : na_bool) : outcome bool :=
  match b with
  | PyTrue => Ok true
  | PyFalse => Ok false
  | PdNA => Raise (TypeError "boolean value of NA is ambiguous")
  end.

(** ** Strings *)

Definition isalnum (c : ascii) : bool :=
  let n := nat_of_ascii c in
  ((48 <=? n) && (n <=? 57)) || ((65 <=? n) && (n <=? 90))
  || ((97 <=? n) && (n <=? 122)).

Definition isspace (c : ascii) : bool :=
  let n := nat_of_ascii c in
  ((9 <=? n) && (n <=? 13)) || ((28 <=? n) && (n <=? 32)).

Definition lower_char (c : ascii) : ascii :=
  let n := nat_of_ascii c in
  if (65 <=? n) && (n <=? 90) then ascii_of_nat (n + 32) else c.

Fixpoint map_string (f : ascii -> ascii) (s : string) : string :=
  match s with
  | EmptyString => EmptyString
  | String c s' => String (f c) (map_string f s')
  end.

Definition sanitize_id (name : string) : string :=
  map_string (fun c => if isalnum c then c else "_"%char) name.

Definition lower (s : string) : string := map_string lower_char s.

Fixpoint lstrip (s : string) : string :=
  match s with
  | EmptyString => EmptyString
  | String c s' => if isspace c then lstrip s' else s
  end.

Fixpoint rstrip (s : string) : string :=
  match s with
  | EmptyString => EmptyString
  | String c s' =>
      match rstrip s' with
      | EmptyString => if isspace c then EmptyString else String c EmptyString
      | t => String c t
      end
  end.

Definition strip (s : string) : string := rstrip (lstrip s).

Definition startswith (s p : string) : bool := String.prefix p s.

(** ** The dataset *)

(** A cell of the [section] column that is not missing.  [read_csv]
    leaves a text as it is; a column whose entries all read as numbers
    (or as booleans) holds the numbers, each given here by the text that
    [str] makes of it. *)
Inductive scalar : Type :=
  | Text (s : string)
  | Number (str : string).

(** [str(x)], the entries of [astype(str)]. *)
Definition astype_str (x : scalar) : string :=
  match x with
  | Text s => s
  | Number str => str
  end.

(** A cell of [min_value] or [max_value] as [float] sees it: a number, a
    missing cell (NaN) or a text that reads as a number on one side, any
    other text (such as ["9,5"]) on the other. *)
Inductive bound : Type :=
  | Numeric (x : pynum)
  | NotNumeric (text : string).

(** [float(x)] on such a cell. *)
Definition float (x : bound) : outcome pynum :=
  match x with
  | Numeric v => Ok v
  | NotNumeric text =>
      Raise (ValueError ("could not convert string to float: '" ++ text ++ "'"))
  end.

Record Row : Type := mkRow {
  section : option scalar;
  question_number : cell;
  main_question : cell;
  sub_question : cell;
  full_question : cell;
  image_url : cell;
  solution : cell;
  option_1 : cell;
  option_2 : cell;
  option_3 : cell;
  option_4 : cell;
  feedback_1 : cell;
  feedback_2 : cell;
  feedback_3 : cell;
  feedback_4 : cell;
  correct_option : option Z;
  min_value : bound;
  max_value : bound;
  units : cell
}.

Definition DataFrame : Type := list Row.

(** [row[f"option_{k}"]] and [row[f"feedback_{k}"]]. *)
Definition option_col (k : nat) (r : Row) : outcome cell :=
  match k with
  | 1 => Ok (option_1 r)
  | 2 => Ok (option_2 r)
  | 3 => Ok (option_3 r)
  | 4 => Ok (option_4 r)
  | _ => Raise (KeyError "option")
  end.

Definition feedback_col (k : nat) (r : Row) : outcome cell :=
  match k with
  | 1 => Ok (feedback_1 r)
  | 2 => Ok (feedback_2 r)
  | 3 => Ok (feedback_3 r)
  | 4 => Ok (feedback_4 r)
  | _ => Raise (KeyError "feedback")
  end.

(** Elementwise [==] of a column with a value: NaN equals nothing. *)
Definition cell_eq (c v : cell) : bool :=
  match c, v with
  | Some a, Some b => String.eqb a b
  | _, _ => false
  end.

(** [Series.unique()]: first-seen order, all NaN counted as one value. *)
Fixpoint unique_from (seen l : list cell) : list cell :=
  match l with
  | [] => []
  | x :: l' =>
      if bool_decide (x ∈ seen) then unique_from seen l'
      else x :: unique_from (x :: seen) l'
  end.

Definition unique (l : list cell) : list cell := unique_from [] l.

(** [DataFrame.drop_duplicates(col)]: the first row of every key. *)
Fixpoint drop_duplicates_from (key : Row -> cell) (seen : list cell)
    (l : list Row) : list Row :=
  match l with
  | [] => []
  | r :: l' =>
      if bool_decide (key r ∈ seen) then drop_duplicates_from key seen l'
      else r :: drop_duplicates_from key (key r :: seen) l'
  end.

Definition drop_duplicates (key : Row -> cell) (l : list Row) : list Row :=
  drop_duplicates_from key [] l.

(** [Series.dropna()]. *)
Definition dropna {A : Type} (l : list (option A)) : list (option A) :=
  List.filter (fun c => match c with Some _ => true | None => false end) l.

(** [.iloc[0]]. *)
Definition iloc0 (l : list Row) : outcome Row :=
  match l with
  | r :: _ => Ok r
  | [] => Raise (IndexError "single positional indexer is out-of-bounds")
  end.

(** Elementwise [==] of the [section] column with a [str]: only a text
    can be equal to it. *)
Definition section_eq (c : option scalar) (s : string) : bool :=
  match c with
  | Some (Text a) => String.eqb a s
  | _ => false
  end.

(** [sections]: [df["section"].dropna().astype(str).unique().tolist()]. *)
Definition sections (df : DataFrame) : list string :=
  omap id (unique (map (fmap astype_str) (dropna (map section df)))).

(** [df[df["section"] == s]]. *)
Definition rows_of_section (df : DataFrame) (s : string) : list Row :=
  List.filter (fun r => section_eq (section r) s) df.

(** [df[(df["section"] == s) & (df["main_question"] == q)]]. *)
Definition rows_of_question (df : DataFrame) (s : string) (q : cell)
    : list Row :=
  List.filter
    (fun r => section_eq (section r) s && cell_eq (main_question r) q) df.

Definition rows_of_step (q_data : list Row) (sq : cell) : list Row :=
  List.filter (fun r => cell_eq (sub_question r) sq) q_data.

(** ** Reactive values and messages *)

(** What an option card shows: an image or a markdown block. *)
Inductive content : Type :=
  | Img (src : string)
  | Markdown (i j : nat) (text : string).

(** One entry of [current_order], as [main_content] builds it. *)
Record OptionView : Type := mkOption {
  opt_content : content;
  option_text : string;
  feedback : cell;
  index : nat;
  original_index : nat;
  is_correct : na_bool
}.

(** The reactive values of [server]. *)
Record Session : Type := mkSession {
  current_order : list OptionView;
  current_section : string;
  current_question : cell;
  current_subq : nat;
  show_solution : bool;
  feedback_text : string;
  current_answer : option pynum;
  current_units : string
}.

Inductive selector : Type :=
  | SelSubq (i : nat)
  | SelFeedbackMessage
  | SelSolutionContent
  | SelMarkdownContent.

(** What the server sends to the browser. *)
Inductive message : Type :=
  | NotificationRemove (id : nat)
  | NotificationShow (msg : string) (duration : nat) (type : string) (id : nat)
  | RenderMath (sel : selector)
  | CollapseNavbar.

(** The session together with the module-level reactive values, the
    counter that numbers the notifications and the messages sent so far
    (latest first). *)
Record World : Type := mkWorld {
  sess : Session;
  last_notification_id : option nat;
  initial_load : bool;
  is_section_selected : bool;
  notification_count : nat;
  sent : list message
}.

Definition initial_session : Session :=
  mkSession [] "" (Some "") 0 false "" None "Select units".

Definition initial_world : World :=
  mkWorld initial_session None true false 0 [].

(** ** Computations of the observers *)

Definition M (A : Type) : Type := World -> outcome (A * World).

#[global] Instance outcome_ret : MRet outcome := fun A a => Ok a.
#[global] Instance outcome_bind : MBind outcome := fun A B f m =>
  match m with
  | Ok a => f a
  | Raise e => Raise e
  end.

#[global] Instance M_ret : MRet M := fun A a w => Ok (a, w).
#[global] Instance M_bind : MBind M := fun A B f m w =>
  match m w with
  | Ok (a, w') => f a w'
  | Raise e => Raise e
  end.

Definition lift {A : Type} (o : outcome A) : M A := fun w =>
  match o with
  | Ok a => Ok (a, w)
  | Raise e => Raise e
  end.

Definition get_sess : M Session := fun w => Ok (sess w, w).

Definition get_world : M World := fun w => Ok (w, w).

Definition modify_sess (f : Session -> Session) : M unit := fun w =>
  Ok (tt, mkWorld (f (sess w)) (last_notification_id w) (initial_load w)
            (is_section_selected w) (notification_count w) (sent w)).

Definition send (m : message) : M unit := fun w =>
  Ok (tt, mkWorld (sess w) (last_notification_id w) (initial_load w)
            (is_section_selected w) (notification_count w) (m :: sent w)).

Definition set_last_notification_id (v : option nat) : M unit := fun w =>
  Ok (tt, mkWorld (sess w) v (initial_load w) (is_section_selected w)
            (notification_count w) (sent w)).

Definition set_initial_load (v : bool) : M unit := fun w =>
  Ok (tt, mkWorld (sess w) (last_notification_id w) v
            (is_section_selected w) (notification_count w) (sent w)).

Definition set_is_section_selected (v : bool) : M unit := fun w =>
  Ok (tt, mkWorld (sess w) (last_notification_id w) (initial_load w) v
            (notification_count w) (sent w)).

(** [ui.notification_show]: sends the notification and returns its id. *)
Definition notification_show (msg : string) (duration : nat) (type : string)
    : M nat := fun w =>
  let id := notification_count w in
  Ok (id, mkWorld (sess w) (last_notification_id w) (initial_load w)
            (is_section_selected w) (S id)
            (NotificationShow msg duration type id :: sent w)).

Definition set_current_order (v : list OptionView) : M unit :=
  modify_sess (fun s => mkSession v (current_section s) (current_question s)
    (current_subq s) (show_solution s) (feedback_text s) (current_answer s)
    (current_units s)).

Definition set_current_section (v : string) : M unit :=
  modify_sess (fun s => mkSession (current_order s) v (current_question s)
    (current_subq s) (show_solution s) (feedback_text s) (current_answer s)
    (current_units s)).

Definition set_current_question (v : cell) : M unit :=
  modify_sess (fun s => mkSession (current_order s) (current_section s) v
    (current_subq s) (show_solution s) (feedback_text s) (current_answer s)
    (current_units s)).

Definition set_current_subq (v : nat) : M unit :=
  modify_sess (fun s => mkSession (current_order s) (current_section s)
    (current_question s) v (show_solution s) (feedback_text s)
    (current_answer s) (current_units s)).

Definition set_show_solution (v : bool) : M unit :=
  modify_sess (fun s => mkSession (current_order s) (current_section s)
    (current_question s) (current_subq s) v (feedback_text s)
    (current_answer s) (current_units s)).

Definition set_feedback_text (v : string) : M unit :=
  modify_sess (fun s => mkSession (current_order s) (current_section s)
    (current_question s) (current_subq s) (show_solution s) v
    (current_answer s) (current_units s)).

Definition set_current_answer (v : option pynum) : M unit :=
  modify_sess (fun s => mkSession (current_order s) (current_section s)
    (current_question s) (current_subq s) (show_solution s) (feedback_text s)
    v (current_units s)).

Definition set_current_units (v : string) : M unit :=
  modify_sess (fun s => mkSession (current_order s) (current_section s)
    (current_question s) (current_subq s) (show_solution s) (feedback_text s)
    (current_answer s) v).

(** ** [reset_state] and [show_new_notification] *)

Definition reset_state : M unit :=
  set_current_subq 0 ;;
  set_show_solution false ;;
  set_feedback_text "" ;;
  set_current_answer None ;;
  set_current_units "Select units".

(** [ui.HTML(msg)] is [str(msg)]. *)
Definition html (msg : cell) : string :=
  match msg with
  | Some s => s
  | None => "nan"
  end.

Definition show_new_notification (msg : cell) (duration : nat)
    (notif_type : string) : M unit :=
  w ← get_world;
  match last_notification_id w with
  | Some old_id =>
      send (NotificationRemove old_id) ;; set_last_notification_id None
  | None => mret tt
  end ;;
  new_id ← notification_show (html msg) duration notif_type;
  set_last_notification_id (Some new_id).

(** ** [random.shuffle] *)

(** [x[i], x[j] = x[j], x[i]]. *)
Definition swap {A : Type} (i j : nat) (x : list A) : list A :=
  match x !! i, x !! j with
  | Some a, Some b => <[j:=a]> (<[i:=b]> x)
  | _, _ => x
  end.

(** The loop [for i in reversed(range(1, len(x)))] with [j = randbelow(i+1)];
    the generator is the list of its raw draws. *)
Fixpoint shuffle_from {A : Type} (i : nat) (draws : list nat) (x : list A)
    : list A :=
  match i with
  | 0 => x
  | S i' =>
      let j := hd 0 draws mod (i + 1) in
      shuffle_from i' (tl draws) (swap i j x)
  end.

Definition shuffle {A : Type} (draws : list nat) (x : list A) : list A :=
  shuffle_from (length x - 1) draws x.

(** ** [main_content]: the option cards of the current step *)

(** The test that skips an option of the row. *)
Definition is_skipped (option_text : cell) : bool :=
  match option_text with
  | None => true
  | Some s =>
      let t := lower (strip s) in
      String.eqb t "" || String.eqb t "nan" || String.eqb t "none"
  end.

(** One turn of [for j in range(4)]: [None] stands for [continue]. *)
Definition option_view (i : nat) (sq_data : list Row) (j : nat)
    : outcome (option OptionView) :=
  r ← iloc0 sq_data;
  option_text ← option_col (j + 1) r;
  if is_skipped option_text then mret None
  else
    let text := html option_text in
    let button_content :=
      if startswith text "http://" || startswith text "https://"
      then Img text else Markdown i j text in
    fb ← feedback_col (j + 1) r;
    mret (Some (mkOption button_content text fb j (j + 1)
                  (na_eq (j + 1) (correct_option r)))).

Fixpoint build_options (i : nat) (sq_data : list Row) (js : list nat)
    : outcome (list OptionView) :=
  match js with
  | [] => mret []
  | j :: js' =>
      o ← option_view i sq_data j;
      rest ← build_options i sq_data js';
      mret (match o with Some v => v :: rest | None => rest end)
  end.

(** [not x] for a string and for a cell (NaN is truthy). *)
Definition falsy (s : string) : bool := String.eqb s "".

Definition falsy_cell (c : cell) : bool :=
  match c with
  | Some s => falsy s
  | None => false
  end.

(** The loop [for i, sq in enumerate(sub_questions)], from index [i]. *)
Fixpoint main_content_loop (q_data : list Row) (draws : list nat) (i : nat)
    (sub_questions : list cell) : M unit :=
  match sub_questions with
  | [] => mret tt
  | sq :: rest =>
      s ← get_sess;
      (if i =? current_subq s then
         options ← lift (build_options i (rows_of_step q_data sq) (seq 0 4));
         set_current_order (shuffle draws options)
       else mret tt) ;;
      main_content_loop q_data draws (S i) rest
  end.

Definition main_content (df : DataFrame) (draws : list nat) : M unit :=
  s ← get_sess;
  if falsy (current_section s) || falsy_cell (current_question s) then mret tt
  else
    let q_data := rows_of_question df (current_section s) (current_question s) in
    let sub_questions := unique (map sub_question q_data) in
    main_content_loop q_data draws 0 sub_questions ;;
    send (RenderMath SelMarkdownContent).

(** ** The observers *)

(** The observer of one landing-page button. *)
Definition section_button_observer (_section : string) : M unit :=
  set_current_section _section ;;
  set_is_section_selected true ;;
  reset_state ;;
  show_new_notification
    (Some ("Section '" ++ _section ++ "' selected. Let's begin!")) 3 "message".

(** The observer of [input.section_nav]. *)
Definition section_nav_observer (df : DataFrame) (selected : string) : M unit :=
  (if bool_decide (selected ∈ sections df) then
     set_current_section selected ;;
     set_current_question (Some "") ;;
     reset_state ;;
     let section_questions := rows_of_section df selected in
     let unique_questions := drop_duplicates question_number section_questions in
     match unique_questions with
     | [] => mret tt
     | r :: _ => set_current_question (main_question r)
     end
   else mret tt) ;;
  w ← get_world;
  if negb (initial_load w) then send CollapseNavbar
  else set_initial_load false.

(** The observer of [input.question]. *)
Definition question_observer (question : string) : M unit :=
  if negb (falsy question) then
    set_current_question (Some question) ;;
    reset_state
  else mret tt.

(** [create_option_observer(sub_q, opt)], first half: the two guards and
    the lookups.  [None] stands for an early [return]; otherwise the
    result is [feedback_message], [is_correct] and [len(sub_questions)]. *)
Definition resolve_click (df : DataFrame) (sub_q opt : nat)
    : M (option (cell * na_bool * nat)) :=
  s ← get_sess;
  let q_data := rows_of_question df (current_section s) (current_question s) in
  let sub_questions := unique (map sub_question q_data) in
  match sub_questions !! sub_q with
  | None => mret None
  | Some sq =>
      let sub_q_data := rows_of_step q_data sq in
      let options := current_order s in
      match options !! opt with
      | None => mret None
      | Some clicked_option =>
          r ← lift (iloc0 sub_q_data);
          feedback_message ← lift (feedback_col (original_index clicked_option) r);
          let is_correct :=
            na_eq (original_index clicked_option) (correct_option r) in
          mret (Some (feedback_message, is_correct, length sub_questions))
      end
  end.

(** Second half: the three branches on [is_correct]. *)
Definition click_transition (feedback_message : cell) (is_correct : na_bool)
    (len_sub_questions : nat) : M unit :=
  b ← lift (truth is_correct);
  s ← get_sess;
  if b && (current_subq s <? len_sub_questions - 1) then
    set_current_subq (current_subq s + 1) ;;
    send (RenderMath (SelSubq (current_subq s + 1))) ;;
    show_new_notification (Some "Correct! Moving to next step.") 3 "message"
  else if b then
    show_new_notification
      (Some "Correct! Please enter your final answer.") 3 "message"
  else
    show_new_notification feedback_message 5 "warning" ;;
    send (RenderMath SelFeedbackMessage).

Definition option_observer (df : DataFrame) (sub_q opt : nat) : M unit :=
  x ← resolve_click df sub_q opt;
  match x with
  | None => mret tt
  | Some (feedback_message, is_correct, n) =>
      click_transition feedback_message is_correct n
  end.

(** The observers that [server] registers: [for i in range(10)],
    [for j in range(4)]. *)
Definition option_observers : list (nat * nat) :=
  i ← seq 0 10; j ← seq 0 4; [(i, j)].

(** [lo <= v <= hi], the value of [numeric_correct]. *)
Definition range_check (lo v hi : pynum) : bool := py_le lo v && py_le v hi.

(** [selected_units == correct_units], the value of [units_correct]. *)
Definition units_check (selected_units : string) (correct_units : cell)
    : bool :=
  cell_eq correct_units (Some selected_units).

(** [check_numeric], the observer of [input.submit_answer]. *)
Definition check_numeric (df : DataFrame) (numeric_answer : option pynum)
    (units_answer : string) : M unit :=
  match numeric_answer with
  | None => set_feedback_text ""
  | Some v =>
      set_current_answer (Some v) ;;
      set_current_units units_answer ;;
      s ← get_sess;
      let q_data :=
        rows_of_question df (current_section s) (current_question s) in
      match q_data with
      | [] => mret tt
      | r :: _ =>
          lo ← lift (float (min_value r));
          hi ← lift (float (max_value r));
          let correct_range := (lo, hi) in
          let selected_units := units_answer in
          let correct_units := units r in
          let numeric_correct :=
            range_check (fst correct_range) v (snd correct_range) in
          let units_correct := units_check selected_units correct_units in
          if numeric_correct && units_correct then
            set_show_solution true ;;
            set_feedback_text "Correct! View the complete solution below." ;;
            show_new_notification
              (Some "Correct! You can now view the complete solution.")
              5 "message" ;;
            send (RenderMath SelSolutionContent)
          else if numeric_correct && negb units_correct then
            set_show_solution false ;;
            let msg :=
              if String.eqb selected_units "Select units"
              then "Your numeric answer is correct! Please select the appropriate units."
              else "Your numeric answer is correct, but the units are incorrect. Try again!" in
            set_feedback_text msg ;;
            show_new_notification (Some msg) 5 "warning"
          else
            set_show_solution false ;;
            set_feedback_text
              "Try again. Your answer is not within the acceptable range." ;;
            show_new_notification
              (Some "Try again. Your answer is not within the acceptable range.")
              5 "warning"
      end
  end.

(** ** Events *)

Inductive event : Type :=
  | ClickSectionButton (button_id : string)
  | SelectSectionNav (selected : string)
  | SelectQuestion (question : string)
  | ClickOption (i j : nat)
  | SubmitAnswer (numeric_answer : option pynum) (units_answer : string)
  | RenderMainContent (draws : list nat).

(** Runs, in registration order, the observers whose input changed. *)
Fixpoint run_observers {K : Type} (hit : K -> bool) (obs : K -> M unit)
    (registered : list K) : M unit :=
  match registered with
  | [] => mret tt
  | k :: rest =>
      (if hit k then obs k else mret tt) ;;
      run_observers hit obs rest
  end.

Definition section_button_id (section : string) : string :=
  "section_button_" ++ sanitize_id section.

(** What the server does on one event of the browser (or, for
    [RenderMainContent], on one run of the render function). *)
Definition dispatch (df : DataFrame) (ev : event) : M unit :=
  match ev with
  | ClickSectionButton button_id =>
      run_observers (fun s => String.eqb (section_button_id s) button_id)
        section_button_observer (sections df)
  | SelectSectionNav selected => section_nav_observer df selected
  | SelectQuestion question => question_observer question
  | ClickOption i j =>
      run_observers (fun k => (fst k =? i) && (snd k =? j))
        (fun k => option_observer df (fst k) (snd k)) option_observers
  | SubmitAnswer numeric_answer units_answer =>
      check_numeric df numeric_answer units_answer
  | RenderMainContent draws => main_content df draws
  end.

(** A run of events; an exception ends it. *)
Fixpoint run (df : DataFrame) (evs : list event) : M unit :=
  match evs with
  | [] => mret tt
  | ev :: rest => dispatch df ev ;; run df rest
  end.

(** ** The order on numbers *)

(** [a <= b] as a proposition: the order of the extended rationals, with
    NaN below and above nothing. *)
Definition num_le (a b : pynum) : Prop :=
  match a, b with
  | NaN, _ | _, NaN => False
  | NInf, _ => True
  | _, PInf => True
  | Fin x, Fin y => (x <= y)%Q
  | _, _ => False
  end.

Definition num_lt (a b : pynum) : Prop := num_le a b /\ ~ num_le b a.

(** The removal that [show_new_notification] sends first. *)
Definition retract (w : World) : list message :=
  match last_notification_id w with
  | Some old_id => [NotificationRemove old_id]
  | None => []
  end.

(** The world after [show_new_notification], on top of messages [pre]
    already added to those of [w]. *)
Definition notified (s : Session) (w : World) (pre : list message)
    (msg : string) (duration : nat) (type : string) : World :=
  mkWorld s (Some (notification_count w)) (initial_load w)
    (is_section_selected w) (S (notification_count w))
    (NotificationShow msg duration type (notification_count w)
       :: retract w ++ pre ++ sent w).

(** The two messages of a right number with wrong units. *)
Definition units_message (selected_units : string) : string :=
  if String.eqb selected_units "Select units"
  then "Your numeric answer is correct! Please select the appropriate units."
  else "Your numeric answer is correct, but the units are incorrect. Try again!".

(** ** Sample datasets *)

(** One section with one question of two steps: the first step has
    three options of which the second is right, the second step is the
    numeric answer in [9.5, 10.5] m/s. *)
Definition kinematics_step1 : Row :=
  mkRow (Some (Text "Kinematics")) (Some "1") (Some "Q1") (Some "Pick the equation")
    (Some "A car speeds up.") None (Some "v = u + a t")
    (Some "v = d / t") (Some "v = u + a t") (Some "https://example.org/c.png")
    None
    (Some "That is the average speed.") (Some "Right.")
    (Some "Look at the units.") None
    (Some 2%Z) (Numeric (Fin (19 # 2))) (Numeric (Fin (21 # 2))) (Some "m/s").

Definition kinematics_step2 : Row :=
  mkRow (Some (Text "Kinematics")) (Some "1") (Some "Q1") (Some "Compute v")
    (Some "A car speeds up.") None (Some "v = u + a t")
    None None None None None None None None
    None (Numeric (Fin (19 # 2))) (Numeric (Fin (21 # 2))) (Some "m/s").

Definition kinematics : DataFrame := [kinematics_step1; kinematics_step2].

(** The session on the first step of Q1, before any render. *)
Definition on_Q1 : World :=
  mkWorld
    (mkSession [] "Kinematics" (Some "Q1") 0 false "" None "Select units")
    None false true 0 [].

(** A step that offers two options and names no correct one. *)
Definition unkeyed_step : Row :=
  mkRow (Some (Text "Statics")) (Some "1") (Some "Q1") (Some "Pick the diagram")
    (Some "A beam rests on two supports.") None None
    (Some "Diagram A") (Some "Diagram B") None None
    (Some "Check the reactions.") (Some "Check the load.") None None
    None (Numeric (Fin 1)) (Numeric (Fin 2)) (Some "N").

Definition statics : DataFrame := [unkeyed_step].

(** A question whose units cell holds the text of the placeholder. *)
Definition placeholder_row : Row :=
  mkRow (Some (Text "Ratios")) (Some "1") (Some "Q1") (Some "Compute the ratio")
    (Some "Two gears mesh.") None None
    None None None None None None None None
    None (Numeric (Fin 1)) (Numeric (Fin 3)) (Some "Select units").

Definition ratios : DataFrame := [placeholder_row].

Definition on_ratios_Q1 : World :=
  mkWorld
    (mkSession [] "Ratios" (Some "Q1") 0 false "" None "Select units")
    None false true 0 [].

(** A question whose range is written the wrong way round. *)
Definition inverted_row : Row :=
  mkRow (Some (Text "Dynamics")) (Some "1") (Some "Q1") (Some "Compute the force")
    (Some "A block slides.") None None
    None None None None None None None None
    None (Numeric (Fin 5)) (Numeric (Fin 3)) (Some "N").

Definition dynamics : DataFrame := [inverted_row].

Definition on_dynamics_Q1 : World :=
  mkWorld
    (mkSession [] "Dynamics" (Some "Q1") 0 false "" None "Select units")
    None false true 0 [].

(** A question whose lower bound is written with a decimal comma: the
    [min_value] column is a column of texts. *)
Definition comma_row : Row :=
  mkRow (Some (Text "Kinetics")) (Some "1") (Some "Q1") (Some "Compute F")
    (Some "A sled is pulled.") None None
    None None None None None None None None
    None (NotNumeric "9,5") (Numeric (Fin 11)) (Some "N").

Definition kinetics : DataFrame := [comma_row].

Definition on_kinetics_Q1 : World :=
  mkWorld
    (mkSession [] "Kinetics" (Some "Q1") 0 false "" None "Select units")
    None false true 0 [].

(** A dataset whose sections are years: the [section] column is a
    column of numbers. *)
Definition year_row (year question : string) : Row :=
  mkRow (Some (Number year)) (Some "1") (Some question) (Some "Compute v")
    (Some "A car speeds up.") None None
    None None None None None None None None
    None (Numeric (Fin 1)) (Numeric (Fin 2)) (Some "m/s").

Definition by_year : DataFrame :=
  [year_row "2024" "Q1"; year_row "2025" "Q2"].

(** The session on a question that the dataset does not have. *)
Definition on_Q9 : World :=
  mkWorld
    (mkSession [] "Kinematics" (Some "Q9") 0 false "old feedback" None
       "Select units")
    (Some 4) false true 5 [].

(** A question of [n] steps, each with the options "yes" and "no" of
    which the first is right. *)
Definition step_row (k : nat) : Row :=
  mkRow (Some (Text "Energy")) (Some "1") (Some "Q1")
    (Some (String (ascii_of_nat (65 + k)) " is conserved?"))
    (Some "A pendulum swings.") None None
    (Some "yes") (Some "no") None None
    (Some "Right.") (Some "Think again.") None None
    (Some 1%Z) (Numeric (Fin 1)) (Numeric (Fin 2)) (Some "J").

Definition long_question (n : nat) : DataFrame := map step_row (seq 0 n).

(** The session on step [k] of that question, its two cards on display. *)
Definition on_step (k : nat) : World :=
  mkWorld
    (mkSession
       [ mkOption (Markdown k 1 "no") "no" (Some "Think again.") 1 2 PyFalse;
         mkOption (Markdown k 0 "yes") "yes" (Some "Right.") 0 1 PyTrue ]
       "Energy" (Some "Q1") k false "" None "Select units")
    None false true 0 [].

(** One question of three steps: two steps with two options each, of
    which the first is right in the first step and the second in the
    second step, and the numeric answer. *)
Definition gait_step (sub option_a option_b feedback_a feedback_b : string)
    (key : option Z) : Row :=
  mkRow (Some (Text "Gait")) (Some "1") (Some "Q1") (Some sub)
    (Some "A runner lands on the heel.") None None
    (Some option_a) (Some option_b) None None
    (Some feedback_a) (Some feedback_b) None None
    key (Numeric (Fin 2)) (Numeric (Fin 3)) (Some "N").

Definition gait_step1 : Row :=
  gait_step "Pick the phase" "stance" "swing"
    "Right." "The foot is on the ground." (Some 1%Z).

Definition gait_step2 : Row :=
  gait_step "Pick the muscle" "soleus" "tibialis anterior"
    "The soleus plantarflexes." "Right." (Some 2%Z).

Definition gait_step3 : Row :=
  mkRow (Some (Text "Gait")) (Some "1") (Some "Q1") (Some "Compute the force")
    (Some "A runner lands on the heel.") None None
    None None None None None None None None
    None (Numeric (Fin 2)) (Numeric (Fin 3)) (Some "N").

Definition gait : DataFrame := [gait_step1; gait_step2; gait_step3].

(** The session on the first step of that question, its two cards on
    display. *)
Definition on_gait_shown : World :=
  mkWorld
    (mkSession
       [ mkOption (Markdown 0 1 "swing") "swing"
           (Some "The foot is on the ground.") 1 2 PyFalse;
         mkOption (Markdown 0 0 "stance") "stance" (Some "Right.") 0 1 PyTrue ]
       "Gait" (Some "Q1") 0 false "" None "Select units")
    None false true 0 [].

(** The same session once [main_content] has run with all draws zero. *)
Definition on_Q1_shown : World :=
  match main_content kinematics [] on_Q1 with
  | Ok (_, w) => w
  | Raise _ => on_Q1
  end.

(** ** Notions used in the statements about the option cards *)

(** The cards that [main_content] builds for a step whose first row is
    [r], before the shuffle. *)
Definition cards (i : nat) (r : Row) : list OptionView :=
  match build_options i [r] (seq 0 4) with
  | Ok options => options
  | Raise _ => []
  end.

(** [v] shows the option of [r] that its [original_index] names. *)
Definition card_of_row (r : Row) (v : OptionView) : Prop :=
  1 <= original_index v <= 4 /\
  index v + 1 = original_index v /\
  option_col (original_index v) r = Ok (Some (option_text v)) /\
  feedback_col (original_index v) r = Ok (feedback v) /\
  is_correct v = na_eq (original_index v) (correct_option r).

(** An option text that counts as absent: NaN, blank, or the word
    "nan" or "none" in any case. *)
Definition blank_option (c : cell) : Prop :=
  match c with
  | None => True
  | Some s =>
      strip s = "" \/ lower (strip s) = "nan" \/ lower (strip s) = "none"
  end.

(** The numbers of the options of [r] that are not absent, in order. *)
Definition shown_columns (r : Row) : list nat :=
  List.filter
    (fun k => match option_col k r with
              | Ok c => negb (is_skipped c)
              | Raise _ => false
              end)
    [1; 2; 3; 4].

(** The session with a new [current_order], after the render message. *)
Definition rendered (w : World) (order : list OptionView) : World :=
  mkWorld
    (mkSession order (current_section (sess w)) (current_question (sess w))
       (current_subq (sess w)) (show_solution (sess w))
       (feedback_text (sess w)) (current_answer (sess w))
       (current_units (sess w)))
    (last_notification_id w) (initial_load w) (is_section_selected w)
    (notification_count w) (RenderMath SelMarkdownContent :: sent w).

(** ** The question tabs *)

(** [question_nav]: nothing when no section is current; otherwise one
    tab (label, value) per distinct [question_number] of the section, and
    the value of the selected tab. *)
Definition question_nav (df : DataFrame) (s : Session)
    : option (list (string * cell) * cell) :=
  if falsy (current_section s) then None
  else
    let section_questions := rows_of_section df (current_section s) in
    let unique_questions :=
      drop_duplicates question_number section_questions in
    Some (map (fun row => (html (question_number row), main_question row))
            unique_questions,
          current_question s).

(** ** The browser's side of a session *)

(** What the user can do on the page. *)
Inductive ui_event : Type :=
  | PressSectionButton (button_id : string)
  | PickSection (selected : string)
  | PickQuestion (question : string)
  | PressCard (j : nat)
  | PressSubmit (numeric_answer : option pynum) (units_answer : string).

(** The cards on the page are those of the current step: card [j] is
    the input [opt_{current_subq}_{j}]. *)
Definition event_of (s : Session) (e : ui_event) : event :=
  match e with
  | PressSectionButton button_id => ClickSectionButton button_id
  | PickSection selected => SelectSectionNav selected
  | PickQuestion question => SelectQuestion question
  | PressCard j => ClickOption (current_subq s) j
  | PressSubmit numeric_answer units_answer =>
      SubmitAnswer numeric_answer units_answer
  end.

(** The reactive values that [main_content] reads. *)
Definition nav (s : Session) : string * cell * nat :=
  (current_section s, current_question s, current_subq s).

Definition nav_eqb (a b : string * cell * nat) : bool :=
  bool_decide (a = b).

(** One user event and the render that follows it: [main_content] runs
    again when a value it reads has changed, and may run again when none
    has ([again]); [draws] are the draws of its shuffle. *)
Definition ui_step (df : DataFrame) (e : ui_event) (again : bool)
    (draws : list nat) : M unit :=
  s ← get_sess;
  dispatch df (event_of s e) ;;
  s' ← get_sess;
  if again || negb (nav_eqb (nav s) (nav s')) then main_content df draws
  else mret tt.

Fixpoint ui_run (df : DataFrame) (steps : list (ui_event * bool * list nat))
    : M unit :=
  match steps with
  | [] => mret tt
  | (e, again, draws) :: rest => ui_step df e again draws ;; ui_run df rest
  end.

(** ** Notions used in the further statements *)

Definition sub_questions_of (df : DataFrame) (s : Session) : list cell :=
  unique (map sub_question
            (rows_of_question df (current_section s) (current_question s))).

(** The session after [reset_state]. *)
Definition reset_session (s : Session) : Session :=
  mkSession (current_order s) (current_section s) (current_question s)
    0 false "" None "Select units".

(** The notifications on screen after the messages of a log (latest
    first): those shown and not removed since. *)
Fixpoint visible (log : list message) : list nat :=
  match log with
  | [] => []
  | NotificationShow _ _ _ id :: older => id :: visible older
  | NotificationRemove id :: older =>
      List.filter (fun i => negb (i =? id)) (visible older)
  | _ :: older => visible older
  end.

(** The only notification on screen is the one the server remembers. *)
Definition one_notification (w : World) : Prop :=
  visible (sent w) = option_list (last_notification_id w).

(** The step index is that of a step of the current question, or 0. *)
Definition step_in_range (df : DataFrame) (w : World) : Prop :=
  current_subq (sess w) = 0
  \/ current_subq (sess w) < length (sub_questions_of df (sess w)).

(** A card built by [main_content]: its [original_index] is its
    [index] plus one, at most 4. *)
Definition well_indexed (v : OptionView) : Prop :=
  original_index v = index v + 1 /\ index v < 4.

(** No section or question has the empty name, every step has a text,
    a row that shows a card names its correct option, and the bounds are
    numbers. *)
Definition keyed (df : DataFrame) : Prop :=
  Forall (fun r => section r <> Some (Text "")
                   /\ main_question r <> Some ""
                   /\ sub_question r <> None
                   /\ (correct_option r = None -> shown_columns r = [])
                   /\ (exists lo, min_value r = Numeric lo)
                   /\ (exists hi, max_value r = Numeric hi)) df.

(** The stored order belongs to the current step: either there is no
    such step, or every stored card is a card of the first row of that
    step and that row names its correct option. *)
Definition in_sync (df : DataFrame) (w : World) : Prop :=
  let s := sess w in
  match sub_questions_of df s !! current_subq s with
  | None => True
  | Some sq =>
      Forall
        (fun v =>
           exists r rest,
             rows_of_step
               (rows_of_question df (current_section s) (current_question s))
               sq = r :: rest
             /\ card_of_row r v /\ correct_option r <> None)
        (current_order s)
  end.

(** [m] keeps [I] whenever it finishes. *)
Definition preserves (I : World -> Prop) {A : Type} (m : M A) : Prop :=
  forall w a w', I w -> m w = Ok (a, w') -> I w'.

(** The session after a section or a question has been picked. *)
Definition picked (s : Session) (sec : string) (q : cell) : Session :=
  mkSession (current_order s) sec q 0 false "" None "Select units".

(** The session one step further. *)
Definition advanced (s : Session) : Session :=
  mkSession (current_order s) (current_section s) (current_question s)
    (current_subq s + 1) (show_solution s) (feedback_text s)
    (current_answer s) (current_units s).

(** The session with another order of cards. *)
Definition reordered (s : Session) (order : list OptionView) : Session :=
  mkSession order (current_section s) (current_question s)
    (current_subq s) (show_solution s) (feedback_text s)
    (current_answer s) (current_units s).

(** The question that [section_nav] opens in a section. *)
Definition opening_question (df : DataFrame) (sec : string) : cell :=
  match rows_of_section df sec with
  | [] => Some ""
  | r :: _ => main_question r
  end.

(** The feedback that [check_numeric] stores for a number and units
    checked against the range and the units of a row. *)
Definition verdict (lo hi : pynum) (correct_units : cell) (v : pynum)
    (units_answer : string) : string :=
  if range_check lo v hi then
    if units_check units_answer correct_units
    then "Correct! View the complete solution below."
    else units_message units_answer
  else "Try again. Your answer is not within the acceptable range.".

(** A number is given, the current question has a row, and the
    [min_value] or the [max_value] of its first row is a text that
    [float] rejects. *)
Definition bad_bound (df : DataFrame) (s : Session)
    (numeric_answer : option pynum) : Prop :=
  exists v r rest,
    numeric_answer = Some v /\
    rows_of_question df (current_section s) (current_question s) = r :: rest /\
    ((exists text, min_value r = NotNumeric text)
     \/ (exists text, max_value r = NotNumeric text)).

(** What one event can do to the reactive values of the session. *)
Inductive session_change (df : DataFrame)
    : event -> Session -> Session -> Prop :=
  | change_none ev s :
      session_change df ev s s
  | change_section_button button_id sec s :
      sec ∈ sections df ->
      section_button_id sec = button_id ->
      session_change df (ClickSectionButton button_id) s
        (picked s sec (current_question s))
  | change_section_nav selected s :
      selected ∈ sections df ->
      session_change df (SelectSectionNav selected) s
        (picked s selected (opening_question df selected))
  | change_question question s :
      question <> "" ->
      session_change df (SelectQuestion question) s
        (picked s (current_section s) (Some question))
  | change_advance i j s :
      i < 10 -> j < 4 ->
      current_subq s < length (sub_questions_of df s) - 1 ->
      session_change df (ClickOption i j) s (advanced s)
  | change_no_number units_answer s :
      session_change df (SubmitAnswer None units_answer) s
        (mkSession (current_order s) (current_section s)
           (current_question s) (current_subq s) (show_solution s) ""
           (current_answer s) (current_units s))
  | change_no_row v units_answer s :
      rows_of_question df (current_section s) (current_question s) = [] ->
      session_change df (SubmitAnswer (Some v) units_answer) s
        (mkSession (current_order s) (current_section s)
           (current_question s) (current_subq s) (show_solution s)
           (feedback_text s) (Some v) units_answer)
  | change_checked v units_answer r rest lo hi s :
      rows_of_question df (current_section s) (current_question s)
        = r :: rest ->
      float (min_value r) = Ok lo ->
      float (max_value r) = Ok hi ->
      session_change df (SubmitAnswer (Some v) units_answer) s
        (mkSession (current_order s) (current_section s)
           (current_question s) (current_subq s)
           (range_check lo v hi && units_check units_answer (units r))
           (verdict lo hi (units r) v units_answer) (Some v) units_answer)
  | change_render draws sq options s :
      falsy (current_section s) = false ->
      falsy_cell (current_question s) = false ->
      sub_questions_of df s !! current_subq s = Some sq ->
      build_options (current_subq s)
        (rows_of_step
           (rows_of_question df (current_section s) (current_question s))
           sq)
        (seq 0 4) = Ok options ->
      session_change df (RenderMainContent draws) s
        (reordered s (shuffle draws options)).

(** * Properties *)

(** ** Comparisons *)

Lemma py_le_spec (a b : pynum) : py_le a b = true <-> num_le a b.
Proof.
  destruct a, b; simpl; try tauto; try (split; [discriminate | tauto]).
  apply Qle_bool_iff.
Qed.

Lemma num_le_trans (a b c : pynum) : num_le a b -> num_le b c -> num_le a c.
Proof.
  destruct a, b, c; simpl; try tauto. apply Qle_trans.
Qed.

Lemma cell_eq_spec (c : cell) (s : string) :
  cell_eq c (Some s) = true <-> c = Some s.
Proof.
  destruct c as [u|]; simpl.
  - rewrite String.eqb_eq. split; congruence.
  - split; discriminate.
Qed.

(** ** [check_numeric] *)

Ltac run_M :=
  unfold mbind, mret, M_bind, M_ret, lift, get_sess, get_world,
    set_show_solution, set_feedback_text, set_current_answer,
    set_current_units, set_current_subq, set_current_order,
    set_current_section, set_current_question, modify_sess, send,
    set_last_notification_id, set_initial_load, set_is_section_selected,
    notification_show; simpl.

(** The same on a world given by its fields, by value. *)
Ltac run_M_fields :=
  cbv beta iota zeta delta
    [mbind mret M_bind M_ret lift get_sess get_world
     set_show_solution set_feedback_text set_current_answer
     set_current_units set_current_subq set_current_order
     set_current_section set_current_question modify_sess send
     set_last_notification_id set_initial_load set_is_section_selected
     notification_show
     sess last_notification_id initial_load is_section_selected
     notification_count sent current_order current_section
     current_question current_subq show_solution feedback_text
     current_answer current_units fst snd].

Lemma one_below_not_le (q : Q) : ~ num_le (Fin q) (Fin (q - 1)).
Proof. simpl. lra. Qed.

Lemma range_check_spec (lo v hi : pynum) :
  range_check lo v hi = true <-> num_le lo v /\ num_le v hi.
Proof.
  unfold range_check. rewrite andb_true_iff, !py_le_spec. tauto.
Qed.

(** The feedback that [check_numeric] stores for the two checks. *)
Lemma check_numeric_found (df : DataFrame) (w : World) (v : pynum)
    (units_answer : string) (r : Row) (rest : list Row) (lo hi : pynum) :
  rows_of_question df (current_section (sess w)) (current_question (sess w))
    = r :: rest ->
  float (min_value r) = Ok lo ->
  float (max_value r) = Ok hi ->
  exists w', check_numeric df (Some v) units_answer w = Ok (tt, w') /\
    show_solution (sess w')
      = range_check lo v hi && units_check units_answer (units r) /\
    feedback_text (sess w')
      = if range_check lo v hi then
          if units_check units_answer (units r)
          then "Correct! View the complete solution below."
          else units_message units_answer
        else "Try again. Your answer is not within the acceptable range.".
Proof.
  intros Hrows Hlo Hhi.
  unfold check_numeric, show_new_notification, units_message. run_M.
  rewrite Hrows, Hlo, Hhi. simpl.
  destruct (range_check lo v hi),
    (units_check units_answer (units r)); simpl;
    destruct (last_notification_id w); simpl;
    eexists; repeat split; reflexivity.
Qed.

(** C1. When the number is present and the current question has a row
    with the numbers [lo] and [hi] as [min_value] and [max_value],
    [check_numeric] finishes and: [show_solution] becomes true exactly
    when [lo <= v <= hi] (both ends included) and the
    selected units are the units of the row, and then the feedback is
    the "Correct! ..." text; a number in range with other units gives
    [show_solution = false] and one of the two units messages; a number
    out of range gives [show_solution = false] and the "Try again ..."
    text whatever the units, in particular the number one below a finite
    [min_value]. *)
Theorem check_numeric_outcome (df : DataFrame) (w : World) (v : pynum)
    (units_answer : string) (r : Row) (rest : list Row) (lo hi : pynum) :
  rows_of_question df (current_section (sess w)) (current_question (sess w))
    = r :: rest ->
  float (min_value r) = Ok lo ->
  float (max_value r) = Ok hi ->
  exists w', check_numeric df (Some v) units_answer w = Ok (tt, w') /\
    let numeric_ok := num_le lo v /\ num_le v hi in
    let units_ok := units r = Some units_answer in
    let try_again :=
      show_solution (sess w') = false /\
      feedback_text (sess w')
        = "Try again. Your answer is not within the acceptable range." in
    (show_solution (sess w') = true <-> numeric_ok /\ units_ok) /\
    (numeric_ok -> units_ok ->
       feedback_text (sess w') = "Correct! View the complete solution below.") /\
    (numeric_ok -> ~ units_ok ->
       show_solution (sess w') = false /\
       feedback_text (sess w') = units_message units_answer) /\
    (~ numeric_ok -> try_again) /\
    (forall q, lo = Fin q -> v = Fin (q - 1) -> try_again).
Proof.
  intros Hrows Hlo Hhi.
  destruct (check_numeric_found df w v units_answer r rest lo hi Hrows Hlo Hhi)
    as (w' & Hrun & Hshow & Hfb).
  exists w'. split; [exact Hrun|]. cbv zeta.
  rewrite Hshow, Hfb, <- range_check_spec. unfold units_check.
  rewrite <- cell_eq_spec.
  assert (Hbelow : forall q, lo = Fin q -> v = Fin (q - 1) ->
            range_check lo v hi = false).
  { intros q Hq Hv.
    destruct (range_check lo v hi) eqn:E; [|reflexivity].
    apply range_check_spec in E. rewrite Hq, Hv in E.
    destruct (one_below_not_le q (proj1 E)). }
  destruct (range_check lo v hi) eqn:Hr,
    (cell_eq (units r) (Some units_answer)) eqn:Hu; simpl;
    repeat split; intros; try reflexivity; try tauto; try congruence;
    try (exfalso; intuition congruence);
    try match goal with
        | Hq : lo = Fin _, Hv : v = Fin _ |- _ =>
            specialize (Hbelow _ Hq Hv); congruence
        end.
Qed.

Lemma check_numeric_outcome_witness :
  exists w', check_numeric kinematics (Some (Fin 10)) "m/s" on_Q1 = Ok (tt, w')
    /\ show_solution (sess w') = true.
Proof.
  destruct (check_numeric_outcome kinematics on_Q1 (Fin 10) "m/s"
              kinematics_step1 [kinematics_step2] _ _ eq_refl eq_refl eq_refl)
    as (w' & Hrun & Hshow & _).
  exists w'. split; [exact Hrun|].
  apply Hshow. simpl. repeat split; discriminate.
Defined.

(** C7. Against a row with the numbers [lo] and [hi] as [min_value] and
    [max_value], where [lo] is above [hi] or one of them is NaN (a missing
    cell), the range check is false for
    every submitted number, and [check_numeric] finishes without an
    exception, leaving [show_solution] false with the "Try again ..."
    text. *)
Theorem range_check_bad_row (df : DataFrame) (w : World) (v : pynum)
    (units_answer : string) (r : Row) (rest : list Row) (lo hi : pynum) :
  rows_of_question df (current_section (sess w)) (current_question (sess w))
    = r :: rest ->
  float (min_value r) = Ok lo ->
  float (max_value r) = Ok hi ->
  num_lt hi lo \/ lo = NaN \/ hi = NaN ->
  range_check lo v hi = false /\
  exists w', check_numeric df (Some v) units_answer w = Ok (tt, w') /\
    show_solution (sess w') = false /\
    feedback_text (sess w')
      = "Try again. Your answer is not within the acceptable range.".
Proof.
  intros Hrows Hmin Hmax Hbad.
  assert (Hrange : range_check lo v hi = false).
  { destruct (range_check lo v hi) eqn:E; [|reflexivity].
    apply range_check_spec in E. destruct E as [Hlo Hhi]. exfalso.
    destruct Hbad as [[_ Hnle] | [Hnan | Hnan]].
    - apply Hnle. eapply num_le_trans; eassumption.
    - rewrite Hnan in Hlo. exact Hlo.
    - rewrite Hnan in Hhi. destruct v; exact Hhi. }
  split; [exact Hrange|].
  destruct (check_numeric_found df w v units_answer r rest lo hi
              Hrows Hmin Hmax)
    as (w' & Hrun & Hshow & Hfb).
  exists w'. rewrite Hrange in Hshow, Hfb. auto.
Qed.

Lemma range_check_bad_row_witness :
  range_check (Fin 5) (Fin 4) (Fin 3) = false /\
  exists w', check_numeric dynamics (Some (Fin 4)) "N" on_dynamics_Q1
               = Ok (tt, w') /\
    show_solution (sess w') = false /\
    feedback_text (sess w')
      = "Try again. Your answer is not within the acceptable range.".
Proof.
  apply (range_check_bad_row dynamics on_dynamics_Q1 (Fin 4) "N"
           inverted_row [] (Fin 5) (Fin 3) eq_refl eq_refl eq_refl).
  left. split; simpl; [discriminate | intros H; apply H; reflexivity].
Defined.

(** C8, as amended.  For every units cell of a row other than the text
    "Select units" itself, the units check of the placeholder selection
    is false; and the check is exact equality of strings: it holds for a
    selection exactly when the cell is that very string, so a difference
    in case fails it. *)
Theorem units_check_placeholder (correct_units : cell) :
  correct_units <> Some "Select units" ->
  units_check "Select units" correct_units = false /\
  (forall selected,
     units_check selected correct_units = true
     <-> correct_units = Some selected) /\
  units_check "M/S" (Some "m/s") = false.
Proof.
  intros Hne. split; [|split; [|reflexivity]].
  - destruct (units_check "Select units" correct_units) eqn:E; [|reflexivity].
    apply cell_eq_spec in E. contradiction.
  - intros selected. apply cell_eq_spec.
Qed.

Lemma units_check_placeholder_witness :
  units_check "Select units" (units kinematics_step1) = false.
Proof.
  apply (units_check_placeholder (units kinematics_step1)). discriminate.
Defined.

(** C8, as stated, fails: a row whose units cell reads "Select units" is
    matched by the placeholder selection, and the solution is shown. *)
Lemma units_check_placeholder_counterexample :
  ~ (forall df r, In r df -> units_check "Select units" (units r) = false) /\
  exists w', check_numeric ratios (Some (Fin 2)) "Select units" on_ratios_Q1
               = Ok (tt, w') /\
    show_solution (sess w') = true.
Proof.
  split.
  - intros H. specialize (H ratios placeholder_row (or_introl eq_refl)).
    discriminate H.
  - eexists. split; [vm_compute; reflexivity | reflexivity].
Qed.

(** C10. With a number present and no row for the current section and
    question, [check_numeric] stores the number and the units and then
    returns: [show_solution] and [feedback_text] keep their values,
    nothing is sent, and only those two reactive values differ. *)
Theorem check_numeric_no_row (df : DataFrame) (w : World) (v : pynum)
    (units_answer : string) :
  rows_of_question df (current_section (sess w)) (current_question (sess w))
    = [] ->
  exists w', check_numeric df (Some v) units_answer w = Ok (tt, w') /\
    current_answer (sess w') = Some v /\
    current_units (sess w') = units_answer /\
    show_solution (sess w') = show_solution (sess w) /\
    feedback_text (sess w') = feedback_text (sess w) /\
    current_order (sess w') = current_order (sess w) /\
    current_section (sess w') = current_section (sess w) /\
    current_question (sess w') = current_question (sess w) /\
    current_subq (sess w') = current_subq (sess w) /\
    sent w' = sent w /\
    last_notification_id w' = last_notification_id w.
Proof.
  intros Hrows. unfold check_numeric. run_M. rewrite Hrows.
  eexists. split; [reflexivity|]. simpl. repeat split; reflexivity.
Qed.

Lemma check_numeric_no_row_witness :
  exists w', check_numeric kinematics (Some (Fin 10)) "m/s" on_Q9 = Ok (tt, w')
    /\ current_answer (sess w') = Some (Fin 10)
    /\ current_units (sess w') = "m/s"
    /\ show_solution (sess w') = false
    /\ feedback_text (sess w') = "old feedback".
Proof.
  destruct (check_numeric_no_row kinematics on_Q9 (Fin 10) "m/s" eq_refl)
    as (w' & Hrun & Ha & Hu & Hs & Hf & _).
  exists w'. repeat split; assumption.
Defined.

(** ** The option observers *)

Lemma show_new_notification_run (msg : cell) (d : nat) (t : string)
    (w : World) :
  show_new_notification msg d t w
  = Ok (tt, notified (sess w) w [] (html msg) d t).
Proof.
  unfold show_new_notification, notified, retract. run_M.
  destruct (last_notification_id w); reflexivity.
Qed.

(** The three branches of the observer of [opt_{sub_q}_{opt}], on the
    outcome [b] of its own comparison: the [original_index] of the card
    at position [opt] of the stored order against the [correct_option]
    of the first row [r] of step [sub_q], the step of the button.  The
    feedback [fb] is that of [r] too. *)
Lemma option_observer_branches (df : DataFrame) (w : World)
    (sub_q opt : nat) (sq : cell) (clicked : OptionView) (r : Row)
    (rest : list Row) (fb : cell) (b : bool) :
  let s := sess w in
  let q_data := rows_of_question df (current_section s) (current_question s) in
  let sub_questions := unique (map sub_question q_data) in
  let last := length sub_questions - 1 in
  sub_questions !! sub_q = Some sq ->
  current_order s !! opt = Some clicked ->
  rows_of_step q_data sq = r :: rest ->
  feedback_col (original_index clicked) r = Ok fb ->
  truth (na_eq (original_index clicked) (correct_option r)) = Ok b ->
  exists w', option_observer df sub_q opt w = Ok (tt, w') /\
    (b = true -> current_subq s < last ->
       sess w' = mkSession (current_order s) (current_section s)
                   (current_question s) (current_subq s + 1)
                   (show_solution s) (feedback_text s) (current_answer s)
                   (current_units s) /\
       sent w' = NotificationShow "Correct! Moving to next step." 3 "message"
                   (notification_count w)
                 :: retract w
                 ++ RenderMath (SelSubq (current_subq s + 1)) :: sent w) /\
    (b = true -> last <= current_subq s ->
       sess w' = s /\
       sent w' = NotificationShow "Correct! Please enter your final answer."
                   3 "message" (notification_count w)
                 :: retract w ++ sent w) /\
    (b = false ->
       sess w' = s /\
       sent w' = RenderMath SelFeedbackMessage
                 :: NotificationShow (html fb) 5 "warning"
                      (notification_count w)
                 :: retract w ++ sent w).
Proof.
  intros s q_data sub_questions last Hsq Hopt Hrows Hfb Hb.
  subst s q_data sub_questions last.
  unfold option_observer, resolve_click, click_transition. run_M.
  rewrite Hsq, Hopt, Hrows. simpl. rewrite Hfb, Hb.
  destruct b; simpl.
  - destruct (current_subq (sess w) <? _) eqn:Hlt.
    + apply Nat.ltb_lt in Hlt. rewrite show_new_notification_run. simpl.
      eexists. split; [reflexivity|]. simpl.
      repeat split; intros; try discriminate; try lia.
    + apply Nat.ltb_ge in Hlt. rewrite show_new_notification_run. simpl.
      eexists. split; [reflexivity|]. simpl.
      repeat split; intros; try discriminate; try lia.
  - rewrite show_new_notification_run. simpl.
    eexists. split; [reflexivity|]. simpl.
    repeat split; intros; discriminate.
Qed.

(** C2, at an input where the code departs from it.  On the dataset
    [gait] the section is picked, the first step is rendered, its right
    card [opt_0_1] is pressed, and the second step is rendered: the
    stored order is now that of the second step, whose card at position
    1 is the wrong one.  A second press of [opt_0_1] (the button of the
    first step, as in a double click) is resolved against that stored
    order and judged with the [correct_option] of the first step: the
    wrong card counts as right, the step index moves from 1 to 2 with
    the progress notification, and the feedback of the card is not
    sent. *)
Theorem late_click_judged_by_button_step :
  exists w1 w2 clicked,
    run gait [SelectSectionNav "Gait"; RenderMainContent [];
              ClickOption 0 1; RenderMainContent []] initial_world
    = Ok (tt, w1) /\
    current_subq (sess w1) = 1 /\
    map option_text (current_order (sess w1))
    = ["tibialis anterior"; "soleus"] /\
    current_order (sess w1) !! 1 = Some clicked /\
    is_correct clicked = PyFalse /\
    feedback clicked = Some "The soleus plantarflexes." /\
    dispatch gait (ClickOption 0 1) w1 = Ok (tt, w2) /\
    current_subq (sess w2) = 2 /\
    hd_error (sent w2)
    = Some (NotificationShow "Correct! Moving to next step." 3 "message" 1) /\
    Forall (fun m => forall d t id,
              m <> NotificationShow "The soleus plantarflexes." d t id)
      (sent w2).
Proof.
  eexists. eexists. eexists.
  split; [vm_compute; reflexivity|].
  split; [reflexivity|]. split; [reflexivity|]. split; [reflexivity|].
  split; [reflexivity|]. split; [reflexivity|].
  split; [vm_compute; reflexivity|].
  split; [reflexivity|]. split; [reflexivity|].
  repeat constructor; discriminate.
Qed.

Lemma run_observers_miss {K : Type} (hit : K -> bool) (obs : K -> M unit)
    (registered : list K) (w : World) :
  Forall (fun k => hit k = false) registered ->
  run_observers hit obs registered w = Ok (tt, w).
Proof.
  induction 1 as [|k ks Hk _ IH]; simpl; [reflexivity|].
  rewrite Hk. run_M. exact IH.
Qed.

Lemma option_observers_spec (i j : nat) :
  (i, j) ∈ option_observers <-> i < 10 /\ j < 4.
Proof.
  unfold option_observers. rewrite list_elem_of_bind. split.
  - intros (i' & Hj & Hi). apply list_elem_of_bind in Hj.
    destruct Hj as (j' & Heq & Hj). apply list_elem_of_singleton in Heq.
    apply elem_of_seq in Hi, Hj. inversion Heq; subst. lia.
  - intros [Hi Hj]. exists i. split; [|apply elem_of_seq; lia].
    apply list_elem_of_bind. exists j.
    split; [apply list_elem_of_singleton; reflexivity | apply elem_of_seq; lia].
Qed.

(** C9. The registered option observers are those of the step indices
    0 to 9 and the positions 0 to 3; a click on an option of a step of
    index 10 or more (or of a position 4 or more) runs no observer: the
    world, and with it the session and the messages sent, is unchanged. *)
Theorem option_click_beyond_tenth_step (df : DataFrame) (w : World)
    (i j : nat) :
  10 <= i \/ 4 <= j ->
  ~ (i, j) ∈ option_observers /\
  dispatch df (ClickOption i j) w = Ok (tt, w).
Proof.
  intros Hout. split.
  - rewrite option_observers_spec. lia.
  - unfold dispatch. apply run_observers_miss. apply Forall_forall.
    intros [i' j'] Hin. apply option_observers_spec in Hin. simpl.
    apply andb_false_iff.
    destruct Hout; [left | right]; apply Nat.eqb_neq; lia.
Qed.

Lemma option_click_beyond_tenth_step_witness :
  dispatch (long_question 11) (ClickOption 10 1) (on_step 10)
  = Ok (tt, on_step 10).
Proof.
  apply (option_click_beyond_tenth_step (long_question 11) (on_step 10) 10 1).
  left. lia.
Defined.

(** The observer of step 10, had it been registered, would have answered
    that click; on step 9 the same click is answered. *)
Example eleventh_step_click_would_count :
  (exists w', option_observer (long_question 11) 10 1 (on_step 10)
              = Ok (tt, w') /\
     sent w' = [NotificationShow "Correct! Please enter your final answer."
                  3 "message" 0]) /\
  (exists w', dispatch (long_question 11) (ClickOption 9 1) (on_step 9)
              = Ok (tt, w') /\
     current_subq (sess w') = 10).
Proof.
  split; eexists; (split; [vm_compute; reflexivity | reflexivity]).
Qed.

(** ** Section navigation *)

Lemma drop_duplicates_cons (key : Row -> cell) (r : Row) (l : list Row) :
  drop_duplicates key (r :: l) = r :: drop_duplicates_from key [key r] l.
Proof.
  reflexivity.
Qed.

Lemma section_eq_spec (c : option scalar) (s : string) :
  section_eq c s = true <-> c = Some (Text s).
Proof.
  destruct c as [[a|a]|]; simpl.
  - rewrite String.eqb_eq. split; congruence.
  - split; discriminate.
  - split; discriminate.
Qed.


Lemma unique_from_subset (seen l : list cell) (x : cell) :
  x ∈ unique_from seen l -> x ∈ l.
Proof.
  revert seen. induction l as [|y l IH]; intros seen; simpl; [tauto|].
  destruct (bool_decide (y ∈ seen)).
  - intros H. apply elem_of_cons. right. eapply IH, H.
  - intros H. apply elem_of_cons in H. apply elem_of_cons.
    destruct H as [-> | H]; [left; reflexivity | right; eapply IH, H].
Qed.




(** ** A click on a step without [correct_option] *)

(** C3. On the dataset [statics], whose only step offers two options and
    has no [correct_option], the events "select the section", "render
    the step", "click the first card" end in a [TypeError]: the observer
    of the click does not finish. *)
Theorem option_click_without_key_raises :
  run statics
    [SelectSectionNav "Statics"; RenderMainContent []; ClickOption 0 0]
    initial_world
  = Raise (TypeError "boolean value of NA is ambiguous").
Proof. vm_compute. reflexivity. Qed.

(** ** The shuffle *)

Lemma swap_Permutation {A : Type} (i j : nat) (x : list A) :
  Permutation (swap i j x) x.
Proof.
  unfold swap. destruct (x !! i) as [a|] eqn:Hi; [|reflexivity].
  destruct (x !! j) as [b|] eqn:Hj; [|reflexivity].
  apply Permutation_insert_swap; assumption.
Qed.

Lemma shuffle_from_Permutation {A : Type} (i : nat) :
  forall (draws : list nat) (x : list A),
    Permutation (shuffle_from i draws x) x.
Proof.
  induction i as [|i IH]; intros draws x; simpl; [reflexivity|].
  etransitivity; [apply IH | apply swap_Permutation].
Qed.

Lemma shuffle_Permutation {A : Type} (draws : list nat) (x : list A) :
  Permutation (shuffle draws x) x.
Proof. apply shuffle_from_Permutation. Qed.

(** ** The render function *)

Lemma main_content_loop_run (q_data : list Row) (draws : list nat) :
  forall (l : list cell) (i : nat) (w : World),
    main_content_loop q_data draws i l w
    = match (if i <=? current_subq (sess w)
             then l !! (current_subq (sess w) - i) else None) with
      | Some sq =>
          match build_options (current_subq (sess w))
                  (rows_of_step q_data sq) (seq 0 4) with
          | Ok options => set_current_order (shuffle draws options) w
          | Raise e => Raise e
          end
      | None => Ok (tt, w)
      end.
Proof.
  induction l as [|sq l IH]; intros i w.
  - simpl. destruct (i <=? current_subq (sess w)); reflexivity.
  - cbn [main_content_loop]. unfold mbind at 1, M_bind, get_sess.
    destruct (Nat.eqb_spec i (current_subq (sess w))) as [-> | Hne].
    + rewrite Nat.leb_refl, Nat.sub_diag.
      change ((sq :: l) !! 0) with (Some sq). cbv beta iota.
      destruct (build_options (current_subq (sess w))
                  (rows_of_step q_data sq) (seq 0 4)) as [options|e];
        [|reflexivity].
      cbv beta iota delta [mbind M_bind lift set_current_order modify_sess].
      rewrite IH. cbn [sess current_subq].
      rewrite (proj2 (Nat.leb_gt _ _)) by lia. reflexivity.
    + unfold mbind, M_bind, mret, M_ret. rewrite IH.
      destruct (i <=? current_subq (sess w)) eqn:Hle.
      * apply Nat.leb_le in Hle.
        rewrite (proj2 (Nat.leb_le _ _)) by lia.
        replace (current_subq (sess w) - i)
          with (S (current_subq (sess w) - S i)) by lia.
        reflexivity.
      * apply Nat.leb_gt in Hle.
        rewrite (proj2 (Nat.leb_gt _ _)) by lia. reflexivity.
Qed.

Ltac case_options r :=
  destruct (option_1 r) as [t1|] eqn:E1, (option_2 r) as [t2|] eqn:E2,
    (option_3 r) as [t3|] eqn:E3, (option_4 r) as [t4|] eqn:E4;
  cbn [is_skipped html];
  repeat match goal with
         | |- context [String.eqb (lower (strip ?t)) ""
                       || String.eqb (lower (strip ?t)) "nan"
                       || String.eqb (lower (strip ?t)) "none"] =>
             let E := fresh "Ekeep" in
             destruct (String.eqb (lower (strip t)) ""
                       || String.eqb (lower (strip t)) "nan"
                       || String.eqb (lower (strip t)) "none") eqn:E
         end.

Lemma build_options_row (i : nat) (r : Row) (rest : list Row) :
  build_options i (r :: rest) (seq 0 4) = Ok (cards i r).
Proof.
  unfold cards. cbn [seq build_options option_view iloc0 option_col
    feedback_col Nat.add mbind mret outcome_bind outcome_ret].
  case_options r; reflexivity.
Qed.

Lemma cards_of_row (i : nat) (r : Row) : Forall (card_of_row r) (cards i r).
Proof.
  unfold cards. cbn [seq build_options option_view iloc0 option_col
    feedback_col Nat.add mbind mret outcome_bind outcome_ret].
  case_options r;
    repeat (apply Forall_cons; split;
            [unfold card_of_row; cbn [original_index index option_text
               feedback is_correct option_col feedback_col Nat.add];
             rewrite ?E1, ?E2, ?E3, ?E4; repeat split; lia|]);
    apply Forall_nil; exact I.
Qed.

Lemma cards_columns (i : nat) (r : Row) :
  map original_index (cards i r) = shown_columns r.
Proof.
  unfold cards, shown_columns.
  cbn [seq build_options option_view iloc0 option_col
    feedback_col Nat.add mbind mret outcome_bind outcome_ret List.filter].
  case_options r; reflexivity.
Qed.

Lemma main_content_run (df : DataFrame) (w : World) (draws : list nat)
    (sq : cell) (r : Row) (rest : list Row) :
  falsy (current_section (sess w)) = false ->
  falsy_cell (current_question (sess w)) = false ->
  unique (map sub_question
            (rows_of_question df (current_section (sess w))
               (current_question (sess w))))
    !! current_subq (sess w) = Some sq ->
  rows_of_step
    (rows_of_question df (current_section (sess w))
       (current_question (sess w))) sq = r :: rest ->
  main_content df draws w
  = Ok (tt, rendered w (shuffle draws (cards (current_subq (sess w)) r))).
Proof.
  intros Hsec Hq Hsq Hrows. unfold main_content.
  unfold mbind at 1, M_bind, get_sess. rewrite Hsec, Hq. cbn [orb].
  unfold mbind at 1, M_bind. rewrite main_content_loop_run.
  cbn [Nat.leb]. rewrite Nat.sub_0_r, Hsq, Hrows, build_options_row.
  reflexivity.
Qed.

Lemma lower_empty (t : string) : lower t = "" <-> t = "".
Proof. unfold lower. destruct t; simpl; split; congruence. Qed.

(** The options that [main_content] skips are the absent ones. *)
Lemma is_skipped_spec (c : cell) : is_skipped c = true <-> blank_option c.
Proof.
  destruct c as [s|]; simpl; [|tauto].
  rewrite !orb_true_iff, !String.eqb_eq, lower_empty. tauto.
Qed.

Lemma shown_columns_spec (r : Row) (k : nat) :
  In k (shown_columns r)
  <-> exists c, 1 <= k <= 4 /\ option_col k r = Ok c /\ ~ blank_option c.
Proof.
  unfold shown_columns. rewrite filter_In. split.
  - intros [Hk Hkeep]. destruct (option_col k r) as [c|e] eqn:Hc;
      [|discriminate].
    exists c. split; [simpl in Hk; lia|]. split; [reflexivity|].
    rewrite <- is_skipped_spec. destruct (is_skipped c); [discriminate|].
    discriminate.
  - intros (c & Hk & Hc & Hnb). rewrite Hc. split.
    + simpl. lia.
    + destruct (is_skipped c) eqn:E; [|reflexivity].
      apply is_skipped_spec in E. contradiction.
Qed.

(** ** The shuffle and the correct option *)

(** C5. After [main_content] has built and shuffled the cards of a step
    whose row names a correct option, whatever the draws of the shuffle
    and whatever the position clicked: the card at that position shows
    the option of the row that its [original_index] names, and the click
    is judged correct when that [original_index] is the [correct_option]
    of the row and incorrect when it is not. *)
Theorem shuffle_keeps_correct_option (df : DataFrame) (w : World)
    (draws : list nat) (sq : cell) (r : Row) (rest : list Row) (c : Z) :
  let s := sess w in
  let q_data := rows_of_question df (current_section s) (current_question s) in
  let sub_questions := unique (map sub_question q_data) in
  falsy (current_section s) = false ->
  falsy_cell (current_question s) = false ->
  sub_questions !! current_subq s = Some sq ->
  rows_of_step q_data sq = r :: rest ->
  correct_option r = Some c ->
  exists w', main_content df draws w = Ok (tt, w') /\
    forall opt clicked,
      current_order (sess w') !! opt = Some clicked ->
      option_col (original_index clicked) r = Ok (Some (option_text clicked))
      /\ exists judged,
           resolve_click df (current_subq s) opt w'
           = Ok (Some (feedback clicked, judged, length sub_questions), w')
           /\ is_correct clicked = judged
           /\ (Z.of_nat (original_index clicked) = c -> judged = PyTrue)
           /\ (Z.of_nat (original_index clicked) <> c -> judged = PyFalse).
Proof.
  intros s q_data sub_questions Hsec Hq Hsq Hrows Hc.
  subst s q_data sub_questions.
  rewrite (main_content_run df w draws sq r rest Hsec Hq Hsq Hrows).
  eexists. split; [reflexivity|]. intros opt clicked Hlk.
  assert (Hcard : card_of_row r clicked).
  { simpl in Hlk. apply list_elem_of_lookup_2 in Hlk.
    rewrite shuffle_Permutation in Hlk.
    pose proof (cards_of_row (current_subq (sess w)) r) as Hall.
    rewrite Forall_forall in Hall. apply Hall, Hlk. }
  destruct Hcard as (_ & _ & Htext & Hfb & Hjudge).
  split; [exact Htext|].
  exists (na_eq (original_index clicked) (correct_option r)).
  split; [|split; [exact Hjudge|]].
  - unfold resolve_click. run_M. simpl in Hlk.
    rewrite Hsq, Hlk, Hrows. simpl. rewrite Hfb. reflexivity.
  - rewrite Hc. unfold na_eq. split; intros H.
    + rewrite (proj2 (Z.eqb_eq _ _) H). reflexivity.
    + rewrite (proj2 (Z.eqb_neq _ _) H). reflexivity.
Qed.

Lemma shuffle_keeps_correct_option_witness :
  exists w', main_content kinematics [7; 4] on_Q1 = Ok (tt, w') /\
    forall opt clicked,
      current_order (sess w') !! opt = Some clicked ->
      (Z.of_nat (original_index clicked) = 2%Z ->
       exists fb n, resolve_click kinematics 0 opt w'
                    = Ok (Some (fb, PyTrue, n), w')).
Proof.
  destruct (shuffle_keeps_correct_option kinematics on_Q1 [7; 4]
              (Some "Pick the equation") kinematics_step1 [] 2%Z
              eq_refl eq_refl eq_refl eq_refl eq_refl) as (w' & Hrun & Hall).
  exists w'. split; [exact Hrun|]. intros opt clicked Hlk Hoi.
  destruct (Hall opt clicked Hlk) as (_ & judged & Hres & _ & Hyes & _).
  rewrite (Hyes Hoi) in Hres. eauto.
Defined.

(** C6. Entering the same step twice: both runs of [main_content]
    finish, the two stored orders are permutations of each other, and
    each holds exactly one card for every option of the row that is not
    absent (NaN, blank, or the word "nan" or "none" in any case), that
    card showing the text and feedback of its option: the absent
    options are left out before the shuffle. *)
Theorem reentry_same_options (df : DataFrame) (w : World)
    (draws1 draws2 : list nat) (sq : cell) (r : Row) (rest : list Row) :
  let s := sess w in
  let q_data := rows_of_question df (current_section s) (current_question s) in
  let sub_questions := unique (map sub_question q_data) in
  falsy (current_section s) = false ->
  falsy_cell (current_question s) = false ->
  sub_questions !! current_subq s = Some sq ->
  rows_of_step q_data sq = r :: rest ->
  exists w1 w2,
    main_content df draws1 w = Ok (tt, w1) /\
    main_content df draws2 w1 = Ok (tt, w2) /\
    Permutation (current_order (sess w1)) (current_order (sess w2)) /\
    Permutation (map original_index (current_order (sess w1)))
      (shown_columns r) /\
    Permutation (map original_index (current_order (sess w2)))
      (shown_columns r) /\
    Forall (card_of_row r) (current_order (sess w1)) /\
    Forall (card_of_row r) (current_order (sess w2)) /\
    (forall k, In k (shown_columns r)
               <-> exists c, 1 <= k <= 4 /\ option_col k r = Ok c
                             /\ ~ blank_option c).
Proof.
  intros s q_data sub_questions Hsec Hq Hsq Hrows.
  subst s q_data sub_questions.
  rewrite (main_content_run df w draws1 sq r rest Hsec Hq Hsq Hrows).
  eexists. eexists. split; [reflexivity|].
  split.
  { exact (main_content_run df
             (rendered w (shuffle draws1 (cards (current_subq (sess w)) r)))
             draws2 sq r rest Hsec Hq Hsq Hrows). }
  cbn [rendered sess current_order current_subq].
  pose proof (cards_of_row (current_subq (sess w)) r) as Hall.
  rewrite <- (cards_columns (current_subq (sess w)) r).
  repeat split.
  - rewrite !shuffle_Permutation. reflexivity.
  - apply Permutation_map, shuffle_Permutation.
  - apply Permutation_map, shuffle_Permutation.
  - rewrite shuffle_Permutation. exact Hall.
  - rewrite shuffle_Permutation. exact Hall.
  - rewrite cards_columns. apply shown_columns_spec.
  - rewrite cards_columns. apply shown_columns_spec.
Qed.

Lemma reentry_same_options_witness :
  exists w1 w2,
    main_content kinematics [1; 1] on_Q1 = Ok (tt, w1) /\
    main_content kinematics [2; 0] w1 = Ok (tt, w2) /\
    Permutation (current_order (sess w1)) (current_order (sess w2)) /\
    Permutation (map original_index (current_order (sess w1))) [1; 2; 3].
Proof.
  destruct (reentry_same_options kinematics on_Q1 [1; 1] [2; 0]
              (Some "Pick the equation") kinematics_step1 []
              eq_refl eq_refl eq_refl eq_refl)
    as (w1 & w2 & H1 & H2 & Hp & Hc & _).
  exists w1, w2. repeat split; assumption.
Defined.

(** * Further properties *)

(** ** Properties kept by every computation step *)

Section Preservation.

Variable I : World -> Prop.

Lemma preserves_ret {A : Type} (a : A) : preserves I (mret a).
Proof. intros w a' w' HI H. inversion H; subst. exact HI. Qed.

Lemma preserves_bind {A B : Type} (m : M A) (k : A -> M B) :
  preserves I m -> (forall a, preserves I (k a)) -> preserves I (m ≫= k).
Proof.
  intros Hm Hk w b w' HI H. unfold mbind, M_bind in H.
  destruct (m w) as [[a w1]|e] eqn:E; [|discriminate].
  eapply Hk; [eapply Hm; eassumption | exact H].
Qed.

Lemma preserves_lift {A : Type} (o : outcome A) : preserves I (lift o).
Proof.
  intros w a w' HI H. unfold lift in H. destruct o; [|discriminate].
  inversion H; subst. exact HI.
Qed.

Lemma preserves_get_sess : preserves I get_sess.
Proof. intros w a w' HI H. inversion H; subst. exact HI. Qed.

Lemma preserves_get_world : preserves I get_world.
Proof. intros w a w' HI H. inversion H; subst. exact HI. Qed.

Lemma preserves_run_observers {K : Type} (hit : K -> bool)
    (obs : K -> M unit) (registered : list K) :
  (forall k, preserves I (obs k)) ->
  preserves I (run_observers hit obs registered).
Proof.
  intros Hobs. induction registered as [|k ks IH]; simpl.
  - apply preserves_ret.
  - apply preserves_bind; [|intros _; exact IH].
    destruct (hit k); [apply Hobs | apply preserves_ret].
Qed.

End Preservation.

(** ** What each observer does to the world *)

Ltac fields w :=
  let order := fresh "order" in
  let sec := fresh "sec" in
  let q := fresh "q" in
  let subq := fresh "subq" in
  let shown := fresh "shown" in
  let fb := fresh "fb" in
  let ans := fresh "ans" in
  let un := fresh "un" in
  let lid := fresh "lid" in
  let il := fresh "il" in
  let sel := fresh "sel" in
  let cnt := fresh "cnt" in
  let out := fresh "out" in
  destruct w as [[order sec q subq shown fb ans un] lid il sel cnt out].

Lemma reset_state_run (w : World) :
  reset_state w
  = Ok (tt, mkWorld (reset_session (sess w)) (last_notification_id w)
              (initial_load w) (is_section_selected w)
              (notification_count w) (sent w)).
Proof. fields w. reflexivity. Qed.

Lemma section_button_observer_run (section : string) (w : World) :
  section_button_observer section w
  = Ok (tt, mkWorld (picked (sess w) section (current_question (sess w)))
              (Some (notification_count w)) (initial_load w) true
              (S (notification_count w))
              (NotificationShow
                 ("Section '" ++ section ++ "' selected. Let's begin!")
                 3 "message" (notification_count w)
               :: retract w ++ sent w)).
Proof.
  fields w. unfold section_button_observer, reset_state,
    show_new_notification. run_M_fields.
  destruct lid; reflexivity.
Qed.

Lemma section_nav_observer_run (df : DataFrame) (selected : string)
    (w : World) :
  section_nav_observer df selected w
  = Ok (tt, mkWorld
              (if bool_decide (selected ∈ sections df)
               then picked (sess w) selected (opening_question df selected)
               else sess w)
              (last_notification_id w) false (is_section_selected w)
              (notification_count w)
              (if initial_load w then sent w
               else CollapseNavbar :: sent w)).
Proof.
  fields w. unfold section_nav_observer, opening_question.
  destruct (bool_decide (selected ∈ sections df)).
  - unfold reset_state. run_M_fields.
    destruct (rows_of_section df selected) as [|r0 rest0].
    + cbn [drop_duplicates drop_duplicates_from].
      destruct il; reflexivity.
    + rewrite drop_duplicates_cons. destruct il; reflexivity.
  - run_M_fields. destruct il; reflexivity.
Qed.

Lemma question_observer_run (question : string) (w : World) :
  question_observer question w
  = Ok (tt, if falsy question then w
            else mkWorld
                   (picked (sess w) (current_section (sess w))
                      (Some question))
                   (last_notification_id w) (initial_load w)
                   (is_section_selected w) (notification_count w) (sent w)).
Proof.
  fields w. unfold question_observer. destruct (falsy question).
  - reflexivity.
  - unfold reset_state. cbn [negb]. run_M_fields. reflexivity.
Qed.

Lemma check_numeric_change (df : DataFrame) (numeric_answer : option pynum)
    (units_answer : string) (w : World) :
  match check_numeric df numeric_answer units_answer w with
  | Ok (_, w') =>
      ~ bad_bound df (sess w) numeric_answer /\
      session_change df (SubmitAnswer numeric_answer units_answer)
        (sess w) (sess w')
  | Raise e =>
      bad_bound df (sess w) numeric_answer /\ exists msg, e = ValueError msg
  end.
Proof.
  fields w. unfold check_numeric, bad_bound.
  cbn [sess current_section current_question].
  destruct numeric_answer as [v|].
  - unfold show_new_notification. run_M_fields.
    destruct (rows_of_question df sec q) as [|r rest] eqn:Hrows.
    + split.
      * intros (v0 & r0 & rest0 & _ & Hne & _). discriminate Hne.
      * apply (change_no_row df v units_answer
                 (mkSession order sec q subq shown fb ans un) Hrows).
    + destruct (min_value r) as [lo|text] eqn:Hmin; cbn [float].
      * destruct (max_value r) as [hi|text] eqn:Hmax; cbn [float].
        -- pose proof (change_checked df v units_answer r rest lo hi
                         (mkSession order sec q subq shown fb ans un) Hrows)
             as Hch.
           rewrite Hmin, Hmax in Hch. specialize (Hch eq_refl eq_refl).
           unfold verdict, units_message in Hch.
           cbn [current_order current_section current_question current_subq]
             in Hch.
           assert (Hok : ~ (exists v0 r0 rest0,
                     Some v = Some v0 /\ r :: rest = r0 :: rest0 /\
                     ((exists text, min_value r0 = NotNumeric text)
                      \/ (exists text, max_value r0 = NotNumeric text)))).
           { intros (v0 & r0 & rest0 & _ & Hr & Hbad).
             injection Hr as <- <-.
             destruct Hbad as [[text Hbad] | [text Hbad]]; congruence. }
           destruct (range_check lo v hi),
             (units_check units_answer (units r));
             cbn [andb negb]; destruct lid; (split; [exact Hok | exact Hch]).
        -- split; [|eexists; reflexivity].
           exists v, r, rest. split; [reflexivity|].
           split; [reflexivity|]. right. exists text. exact Hmax.
      * split; [|eexists; reflexivity].
        exists v, r, rest. split; [reflexivity|].
        split; [reflexivity|]. left. exists text. exact Hmin.
  - run_M_fields. split.
    + intros (v0 & r0 & rest0 & Hv & _). discriminate Hv.
    + apply (change_no_number df units_answer
               (mkSession order sec q subq shown fb ans un)).
Qed.

Lemma option_observer_change (df : DataFrame) (i j : nat) (w : World) :
  match option_observer df i j w with
  | Ok (_, w') =>
      sess w' = sess w
      \/ (sess w' = advanced (sess w)
          /\ current_subq (sess w)
             < length (sub_questions_of df (sess w)) - 1)
  | Raise _ => True
  end.
Proof.
  fields w.
  unfold option_observer, resolve_click, click_transition,
    show_new_notification, sub_questions_of, advanced, iloc0.
  run_M_fields.
  destruct (unique (map sub_question (rows_of_question df sec q)) !! i)
    as [sq|]; [|left; reflexivity].
  destruct (order !! j) as [clicked|]; [|left; reflexivity].
  destruct (rows_of_step (rows_of_question df sec q) sq) as [|r rest];
    [exact I|].
  destruct (feedback_col (original_index clicked) r) as [fbm|e]; [|exact I].
  destruct (truth (na_eq (original_index clicked) (correct_option r)))
    as [[|]|e]; [| |exact I].
  - destruct (subq <? length (unique (map sub_question
                                        (rows_of_question df sec q))) - 1)
      eqn:Hlt; cbn [andb]; destruct lid.
    + right. split; [reflexivity|]. apply Nat.ltb_lt. exact Hlt.
    + right. split; [reflexivity|]. apply Nat.ltb_lt. exact Hlt.
    + left. reflexivity.
    + left. reflexivity.
  - cbn [andb]. destruct lid; left; reflexivity.
Qed.

Lemma main_content_change (df : DataFrame) (draws : list nat) (w : World) :
  match main_content df draws w with
  | Ok (_, w') =>
      session_change df (RenderMainContent draws) (sess w) (sess w')
  | Raise _ => True
  end.
Proof.
  unfold main_content. unfold mbind at 1, M_bind, get_sess.
  destruct (falsy (current_section (sess w))) eqn:Hsec;
    [apply change_none|].
  destruct (falsy_cell (current_question (sess w))) eqn:Hq;
    [apply change_none|].
  cbn [orb]. unfold mbind at 1, M_bind. rewrite main_content_loop_run.
  cbn [Nat.leb]. rewrite Nat.sub_0_r.
  destruct (unique (map sub_question
                      (rows_of_question df (current_section (sess w))
                         (current_question (sess w))))
            !! current_subq (sess w)) as [sq|] eqn:Hsq;
    [|apply change_none].
  destruct (build_options (current_subq (sess w))
              (rows_of_step
                 (rows_of_question df (current_section (sess w))
                    (current_question (sess w))) sq) (seq 0 4))
    as [options|e] eqn:Hbuild; [|exact I].
  exact (change_render df draws sq options (sess w) Hsec Hq Hsq Hbuild).
Qed.

Lemma section_buttons_change (df : DataFrame) (button_id : string) :
  forall (registered : list string) (w : World),
    (forall sec, sec ∈ registered -> sec ∈ sections df) ->
    exists w',
      run_observers (fun s => String.eqb (section_button_id s) button_id)
        section_button_observer registered w = Ok (tt, w')
      /\ (sess w' = sess w
          \/ exists sec, sec ∈ registered
               /\ section_button_id sec = button_id
               /\ sess w' = picked (sess w) sec (current_question (sess w))).
Proof.
  induction registered as [|k ks IH]; intros w Hsub.
  - exists w. split; [reflexivity | left; reflexivity].
  - cbn [run_observers]. unfold mbind, M_bind.
    assert (Hks : forall sec, sec ∈ ks -> sec ∈ sections df).
    { intros sec Hin. apply Hsub. apply elem_of_cons. right. exact Hin. }
    destruct (String.eqb (section_button_id k) button_id) eqn:Hhit.
    + rewrite section_button_observer_run.
      match goal with
      | |- exists w', run_observers _ _ _ ?w1 = _ /\ _ =>
          destruct (IH w1 Hks) as (w' & Hrun & Hsess)
      end.
      exists w'. split; [exact Hrun|]. right.
      cbn [sess] in Hsess. apply String.eqb_eq in Hhit.
      destruct Hsess as [Hsame | (sec & Hin & Hid & Hsec)].
      * exists k. split; [apply list_elem_of_here|]. split; assumption.
      * exists sec. split; [apply elem_of_cons; right; exact Hin|].
        split; [exact Hid|]. rewrite Hsec. reflexivity.
    + unfold mret, M_ret. destruct (IH w Hks) as (w' & Hrun & Hsess).
      exists w'. split; [exact Hrun|].
      destruct Hsess as [Hsame | (sec & Hin & Hid & Hsec)];
        [left; exact Hsame|].
      right. exists sec. split; [apply elem_of_cons; right; exact Hin|].
      split; assumption.
Qed.

Lemma run_observers_one {K : Type} (hit : K -> bool) (obs : K -> M unit)
    (k : K) :
  (forall k', hit k' = true -> k' = k) ->
  forall (registered : list K) (w w' : World),
    NoDup registered ->
    run_observers hit obs registered w = Ok (tt, w') ->
    w' = w \/ (k ∈ registered /\ obs k w = Ok (tt, w')).
Proof.
  intros Hk. induction registered as [|x xs IH]; intros w w' Hnd Hrun.
  - inversion Hrun; subst. left. reflexivity.
  - apply NoDup_cons in Hnd. destruct Hnd as [Hx Hnd].
    cbn [run_observers] in Hrun. unfold mbind, M_bind in Hrun.
    destruct (hit x) eqn:Hhit.
    + apply Hk in Hhit. subst x.
      destruct (obs k w) as [[[] w1]|e] eqn:Hobs; [|discriminate].
      rewrite run_observers_miss in Hrun.
      * inversion Hrun; subst. right.
        split; [apply list_elem_of_here | reflexivity].
      * apply Forall_forall. intros y Hy.
        destruct (hit y) eqn:Hy'; [|reflexivity].
        apply Hk in Hy'. subst y. contradiction.
    + destruct (IH w w' Hnd Hrun) as [-> | [Hin Hobs]];
        [left; reflexivity|].
      right. split; [apply elem_of_cons; right; exact Hin | exact Hobs].
Qed.

Lemma option_observers_NoDup : NoDup option_observers.
Proof.
  apply (bool_decide_eq_true_1 (NoDup option_observers)).
  vm_compute. reflexivity.
Qed.

(** Every event that finishes changes the session in one of the listed
    ways. *)
Lemma dispatch_session_change (df : DataFrame) (ev : event) (w w' : World) :
  dispatch df ev w = Ok (tt, w') ->
  session_change df ev (sess w) (sess w').
Proof.
  destruct ev as [button_id|selected|question|i j|numeric units_answer|draws];
    cbn [dispatch]; intros Hrun.
  - destruct (section_buttons_change df button_id (sections df) w
                (fun _ H => H)) as (w1 & Hrun1 & Hsess).
    rewrite Hrun1 in Hrun. inversion Hrun; subst w1.
    destruct Hsess as [-> | (sec & Hin & Hid & ->)].
    + apply change_none.
    + apply change_section_button; assumption.
  - rewrite section_nav_observer_run in Hrun. inversion Hrun; subst w'.
    cbn [sess].
    destruct (bool_decide (selected ∈ sections df)) eqn:Hsel.
    + apply change_section_nav. apply bool_decide_eq_true_1 in Hsel.
      exact Hsel.
    + apply change_none.
  - rewrite question_observer_run in Hrun. inversion Hrun; subst w'.
    destruct (falsy question) eqn:Hq; [apply change_none|].
    cbn [sess]. apply change_question. intros ->. discriminate Hq.
  - apply (run_observers_one _ _ (i, j)) in Hrun.
    + destruct Hrun as [-> | [Hin Hobs]]; [apply change_none|].
      cbn [fst snd] in Hobs. apply option_observers_spec in Hin.
      pose proof (option_observer_change df i j w) as Hch.
      rewrite Hobs in Hch.
      destruct Hch as [-> | [-> Hlt]]; [apply change_none|].
      apply change_advance; [lia | lia | exact Hlt].
    + intros [i' j'] Hhit. cbn [fst snd] in Hhit.
      apply andb_true_iff in Hhit. destruct Hhit as [Hi Hj].
      apply Nat.eqb_eq in Hi, Hj. congruence.
    + apply option_observers_NoDup.
  - pose proof (check_numeric_change df numeric units_answer w) as Hch.
    rewrite Hrun in Hch. exact (proj2 Hch).
  - pose proof (main_content_change df draws w) as Hch.
    rewrite Hrun in Hch. exact Hch.
Qed.

(** ** Consequences for the session *)

(** X1. [reset_state] run twice leaves the world that one run leaves, and
    a run keeps the stored order, the section and the question. *)
Theorem reset_state_idempotent (w : World) :
  (reset_state ;; reset_state) w = reset_state w /\
  exists w', reset_state w = Ok (tt, w') /\
    current_order (sess w') = current_order (sess w) /\
    current_section (sess w') = current_section (sess w) /\
    current_question (sess w') = current_question (sess w).
Proof.
  split.
  - unfold mbind, M_bind. rewrite (reset_state_run w).
    rewrite reset_state_run. reflexivity.
  - rewrite reset_state_run. eexists. split; [reflexivity|].
    repeat split.
Qed.

(** X2. Whatever the event, a solution that was hidden is shown after it
    only if the event is a submission of a number within the range of
    the question's first row, both ends included, with that row's units
    selected. *)
Theorem solution_only_by_correct_submit (df : DataFrame) (ev : event)
    (w w' : World) :
  dispatch df ev w = Ok (tt, w') ->
  show_solution (sess w) = false ->
  show_solution (sess w') = true ->
  exists v units_answer r rest lo hi,
    ev = SubmitAnswer (Some v) units_answer /\
    rows_of_question df (current_section (sess w))
      (current_question (sess w)) = r :: rest /\
    float (min_value r) = Ok lo /\ float (max_value r) = Ok hi /\
    num_le lo v /\ num_le v hi /\
    units r = Some units_answer.
Proof.
  intros Hrun Hoff Hon. apply dispatch_session_change in Hrun.
  inversion Hrun as
    [ev0 s0 Hs
    |bid sec s0 Hin Hid Hev Hs Hs'
    |sel s0 Hin Hev Hs Hs'
    |qn s0 Hqn Hev Hs Hs'
    |i j s0 Hi Hj Hlt Hev Hs Hs'
    |ua s0 Hev Hs Hs'
    |v ua s0 Hrows Hev Hs Hs'
    |v ua r rest lo hi s0 Hrows Hlo Hhi Hev Hs Hs'
    |draws sq options s0 Hsec Hq Hsq Hbuild Hev Hs Hs'];
    try (rewrite <- Hs' in Hon; cbn [show_solution picked advanced reordered]
           in Hon; congruence).
  - congruence.
  - rewrite <- Hs' in Hon. cbn [show_solution] in Hon.
    apply andb_true_iff in Hon. destruct Hon as [Hrange Hunits].
    apply range_check_spec in Hrange. apply cell_eq_spec in Hunits.
    exists v, ua, r, rest, lo, hi. tauto.
Qed.

Lemma solution_only_by_correct_submit_witness :
  exists v units_answer r rest lo hi,
    SubmitAnswer (Some (Fin 10)) "m/s" = SubmitAnswer (Some v) units_answer /\
    rows_of_question kinematics (current_section (sess on_Q1))
      (current_question (sess on_Q1)) = r :: rest /\
    float (min_value r) = Ok lo /\ float (max_value r) = Ok hi /\
    num_le lo v /\ num_le v hi /\
    units r = Some units_answer.
Proof.
  eapply (solution_only_by_correct_submit kinematics
            (SubmitAnswer (Some (Fin 10)) "m/s") on_Q1);
    [vm_compute; reflexivity | reflexivity | reflexivity].
Defined.

(** X3. A click on an option card that finishes leaves the session as it
    was or moves the step index up by exactly one, and then the new
    index is still the index of a step of the current question; nothing
    else of the session changes. *)
Theorem option_click_effect (df : DataFrame) (i j : nat) (w w' : World) :
  dispatch df (ClickOption i j) w = Ok (tt, w') ->
  sess w' = sess w
  \/ (sess w' = advanced (sess w)
      /\ current_subq (sess w')
         < length (sub_questions_of df (sess w'))).
Proof.
  intros Hrun. apply dispatch_session_change in Hrun.
  inversion Hrun as
    [ev0 s0 Hs| | | |i0 j0 s0 Hi Hj Hlt Hev Hs Hs'| | | | ].
  - left. reflexivity.
  - right. split; [reflexivity|].
    unfold sub_questions_of in *. cbn [advanced current_subq current_section
      current_question]. lia.
Qed.

Lemma option_click_effect_witness :
  exists w', dispatch kinematics (ClickOption 0 0) on_Q1_shown = Ok (tt, w')
    /\ sess w' = advanced (sess on_Q1_shown).
Proof.
  eexists. split; [vm_compute; reflexivity|].
  match goal with
  | |- sess ?w1 = _ =>
      destruct (option_click_effect kinematics 0 0 on_Q1_shown w1 eq_refl)
        as [Hsame | [Hadv _]]
  end.
  - discriminate Hsame.
  - exact Hadv.
Defined.

Lemma session_change_step_in_range (df : DataFrame) (ev : event)
    (s s' : Session) (w w' : World) :
  session_change df ev s s' -> sess w = s -> sess w' = s' ->
  step_in_range df w -> step_in_range df w'.
Proof.
  unfold step_in_range, sub_questions_of.
  intros Hch Hs Hs' Hin. rewrite Hs in Hin. rewrite Hs'. clear Hs Hs'.
  destruct Hch; cbn [picked advanced reordered current_subq current_section
    current_question]; try (left; reflexivity); try exact Hin.
  right. unfold sub_questions_of in *. lia.
Qed.

(** X4. In every run of events that finishes, from a world whose step
    index is 0 or the index of a step of the current question, the step
    index is again 0 or the index of a step of the current question. *)
Theorem step_in_range_run (df : DataFrame) (evs : list event) :
  forall w w',
    step_in_range df w ->
    run df evs w = Ok (tt, w') ->
    step_in_range df w'.
Proof.
  induction evs as [|ev evs IH]; intros w w' Hin Hrun.
  - inversion Hrun; subst. exact Hin.
  - cbn [run] in Hrun. unfold mbind, M_bind in Hrun.
    destruct (dispatch df ev w) as [[[] w1]|e] eqn:Hev; [|discriminate].
    apply (IH w1 w'); [|exact Hrun].
    eapply session_change_step_in_range;
      [apply (dispatch_session_change df ev w w1 Hev)
      | reflexivity | reflexivity | exact Hin].
Qed.

Lemma step_in_range_run_witness :
  step_in_range kinematics
    (match run kinematics
             [SelectSectionNav "Kinematics"; RenderMainContent [];
              ClickOption 0 0]
             initial_world with
     | Ok (_, w) => w
     | Raise _ => initial_world
     end).
Proof.
  eapply (step_in_range_run kinematics
            [SelectSectionNav "Kinematics"; RenderMainContent [];
             ClickOption 0 0] initial_world).
  - left. reflexivity.
  - vm_compute. reflexivity.
Defined.

(** ** The stored cards *)

Lemma option_view_well_indexed (i : nat) (sq_data : list Row) (j : nat)
    (v : OptionView) :
  j < 4 -> option_view i sq_data j = Ok (Some v) -> well_indexed v.
Proof.
  intros Hj. unfold option_view, iloc0.
  destruct sq_data as [|r rest]; [discriminate|].
  cbn [mbind outcome_bind].
  destruct (option_col (j + 1) r) as [c|e]; [|discriminate].
  cbn [mbind outcome_bind].
  destruct (is_skipped c); [discriminate|].
  destruct (feedback_col (j + 1) r) as [fbm|e]; [|discriminate].
  cbn [mbind outcome_bind mret outcome_ret]. intros H.
  injection H as <-. split; [reflexivity | exact Hj].
Qed.

Lemma build_options_well_indexed (i : nat) (sq_data : list Row) :
  forall (js : list nat) (options : list OptionView),
    Forall (fun j => j < 4) js ->
    build_options i sq_data js = Ok options ->
    Forall well_indexed options.
Proof.
  induction js as [|j js IH]; intros options Hjs Hbuild.
  - injection Hbuild as <-. constructor.
  - apply Forall_cons in Hjs. destruct Hjs as [Hj Hjs].
    cbn [build_options] in Hbuild. unfold mbind, outcome_bind in Hbuild.
    destruct (option_view i sq_data j) as [o|e] eqn:Hview; [|discriminate].
    destruct (build_options i sq_data js) as [rest|e] eqn:Hrest;
      [|discriminate].
    injection Hbuild as <-. specialize (IH rest Hjs eq_refl).
    destruct o as [v|]; [|exact IH].
    constructor; [|exact IH].
    eapply option_view_well_indexed; eassumption.
Qed.

Lemma seq_below_4 : Forall (fun j => j < 4) (seq 0 4).
Proof. repeat constructor. Qed.

(** X5. In every run of events that finishes, from a world whose stored
    cards are well indexed (as in the initial world, which has none),
    every stored card has an [original_index] of its [index] plus one
    between 1 and 4, so that its feedback column exists in every row. *)
Theorem stored_cards_well_indexed (df : DataFrame) (evs : list event) :
  forall w w',
    Forall well_indexed (current_order (sess w)) ->
    run df evs w = Ok (tt, w') ->
    Forall well_indexed (current_order (sess w')) /\
    forall v r, v ∈ current_order (sess w') ->
                exists c, feedback_col (original_index v) r = Ok c.
Proof.
  induction evs as [|ev evs IH]; intros w w' Hin Hrun.
  - inversion Hrun; subst. split; [exact Hin|].
    intros v r Hv. rewrite Forall_forall in Hin.
    destruct (Hin v Hv) as [Hoi Hlt]. rewrite Hoi.
    destruct (index v) as [|[|[|[|n]]]]; cbn; eauto; lia.
  - cbn [run] in Hrun. unfold mbind, M_bind in Hrun.
    destruct (dispatch df ev w) as [[[] w1]|e] eqn:Hev; [|discriminate].
    apply (IH w1 w'); [|exact Hrun].
    apply dispatch_session_change in Hev.
    destruct Hev; cbn [picked advanced reordered current_order];
      try exact Hin.
    rewrite shuffle_Permutation.
    eapply build_options_well_indexed; [apply seq_below_4 | eassumption].
Qed.

Lemma stored_cards_well_indexed_witness :
  Forall well_indexed (current_order (sess on_Q1_shown)).
Proof.
  apply (stored_cards_well_indexed kinematics [RenderMainContent []]
           on_Q1 on_Q1_shown); [constructor | vm_compute; reflexivity].
Defined.

(** X6. The observers of the landing-page buttons, of the section menu
    and of the question tabs never raise, on any dataset and in any
    world.  The observer of the submit button raises exactly when a
    number is given, the current question has a row, and [float] rejects
    the [min_value] or the [max_value] of its first row; what it raises
    then is a [ValueError].  When one of
    these observers finishes, the stored cards are as they were. *)
Theorem navigation_and_submit_outcome (df : DataFrame) (ev : event)
    (w : World) :
  match ev with
  | ClickOption _ _ | RenderMainContent _ => False
  | _ => True
  end ->
  match dispatch df ev w with
  | Ok (_, w') =>
      current_order (sess w') = current_order (sess w) /\
      forall numeric units_answer,
        ev = SubmitAnswer numeric units_answer ->
        ~ bad_bound df (sess w) numeric
  | Raise e =>
      exists numeric units_answer msg,
        ev = SubmitAnswer numeric units_answer /\
        bad_bound df (sess w) numeric /\
        e = ValueError msg
  end.
Proof.
  destruct ev as [button_id|selected|question|i j|numeric units_answer|draws];
    intros Hev; try contradiction; cbn [dispatch].
  - destruct (section_buttons_change df button_id (sections df) w
                (fun _ H => H)) as (w' & Hrun & Hsess).
    rewrite Hrun. split; [|discriminate].
    destruct Hsess as [-> | (sec & _ & _ & ->)]; reflexivity.
  - rewrite section_nav_observer_run. split; [|discriminate].
    cbn [sess]. destruct (bool_decide _); reflexivity.
  - rewrite question_observer_run. split; [|discriminate].
    destruct (falsy question); reflexivity.
  - pose proof (check_numeric_change df numeric units_answer w) as Hch.
    destruct (check_numeric df numeric units_answer w) as [[[] w']|e].
    + destruct Hch as [Hok Hch]. split.
      * inversion Hch; reflexivity.
      * intros numeric0 units0 Heq. injection Heq as <- <-. exact Hok.
    + destruct Hch as [Hbad [msg ->]]. exists numeric, units_answer, msg.
      auto.
Qed.

Lemma navigation_and_submit_outcome_witness :
  exists msg,
    dispatch kinetics (SubmitAnswer (Some (Fin 10)) "N") on_kinetics_Q1
    = Raise (ValueError msg).
Proof.
  pose proof (navigation_and_submit_outcome kinetics
                (SubmitAnswer (Some (Fin 10)) "N") on_kinetics_Q1 I) as H.
  destruct (dispatch kinetics (SubmitAnswer (Some (Fin 10)) "N")
              on_kinetics_Q1) as [[[] w']|e] eqn:E.
  - destruct H as [_ H]. exfalso. apply (H _ _ eq_refl).
    exists (Fin 10), comma_row, [].
    split; [reflexivity|]. split; [reflexivity|]. left.
    exists "9,5". reflexivity.
  - destruct H as (_ & _ & msg & _ & _ & ->). exists msg. reflexivity.
Defined.

(** X7. A run of [main_content] that finishes changes nothing of the
    session but the stored cards; and when no section or no question is
    current, or the step index is not that of a step of the current
    question, it leaves the stored cards as they were too. *)
Theorem main_content_frame (df : DataFrame) (draws : list nat)
    (w w' : World) :
  main_content df draws w = Ok (tt, w') ->
  (exists order, sess w' = reordered (sess w) order) /\
  (falsy (current_section (sess w)) = true
   \/ falsy_cell (current_question (sess w)) = true
   \/ length (sub_questions_of df (sess w)) <= current_subq (sess w) ->
   sess w' = sess w).
Proof.
  intros Hrun.
  pose proof (dispatch_session_change df (RenderMainContent draws) w w' Hrun)
    as Hch.
  inversion Hch as
    [ev0 s0 Hs| | | | | | |
     |draws0 sq options s0 Hsec Hq Hsq Hbuild Hev Hs Hs'].
  - split; [|intros _; reflexivity].
    exists (current_order (sess w)). destruct (sess w); reflexivity.
  - split; [eexists; reflexivity|].
    intros [H | [H | H]]; [congruence | congruence |].
    apply lookup_lt_Some in Hsq. lia.
Qed.

Lemma main_content_frame_witness :
  exists w', main_content kinematics [3; 1] on_Q9 = Ok (tt, w') /\
    sess w' = sess on_Q9.
Proof.
  eexists. split; [vm_compute; reflexivity|].
  match goal with
  | |- sess ?w1 = _ =>
      apply (main_content_frame kinematics [3; 1] on_Q9 w1 eq_refl)
  end.
  right. right. vm_compute. lia.
Defined.

(** ** The notification on screen *)

Lemma one_notification_modify_sess (f : Session -> Session) :
  preserves one_notification (modify_sess f).
Proof. intros w a w' HI H. inversion H; subst. exact HI. Qed.

Lemma one_notification_send_render (sel : selector) :
  preserves one_notification (send (RenderMath sel)).
Proof. intros w a w' HI H. inversion H; subst. exact HI. Qed.

Lemma one_notification_send_collapse :
  preserves one_notification (send CollapseNavbar).
Proof. intros w a w' HI H. inversion H; subst. exact HI. Qed.

Lemma one_notification_set_initial_load (b : bool) :
  preserves one_notification (set_initial_load b).
Proof. intros w a w' HI H. inversion H; subst. exact HI. Qed.

Lemma one_notification_set_is_section_selected (b : bool) :
  preserves one_notification (set_is_section_selected b).
Proof. intros w a w' HI H. inversion H; subst. exact HI. Qed.

Lemma one_notification_show (msg : cell) (d : nat) (t : string) :
  preserves one_notification (show_new_notification msg d t).
Proof.
  intros w a w' HI H. rewrite show_new_notification_run in H.
  inversion H; subst. unfold one_notification, notified, retract in *.
  cbn [sent last_notification_id option_list visible app].
  destruct (last_notification_id w) as [old|]; cbn [option_list] in HI;
    cbn [app visible]; rewrite HI; simpl.
  - rewrite Nat.eqb_refl. reflexivity.
  - reflexivity.
Qed.

Ltac keeps_step :=
  lazymatch goal with
  | |- preserves _ (show_new_notification _ _ _) =>
      apply one_notification_show
  | |- preserves _ (modify_sess _) => apply one_notification_modify_sess
  | |- preserves _ (send (RenderMath _)) => apply one_notification_send_render
  | |- preserves _ (send CollapseNavbar) => apply one_notification_send_collapse
  | |- preserves _ (set_initial_load _) =>
      apply one_notification_set_initial_load
  | |- preserves _ (set_is_section_selected _) =>
      apply one_notification_set_is_section_selected
  | |- preserves _ (lift _) => apply preserves_lift
  | |- preserves _ get_sess => apply preserves_get_sess
  | |- preserves _ get_world => apply preserves_get_world
  | |- preserves _ (mret _) => apply preserves_ret
  | |- preserves _ (mbind _ _) => apply preserves_bind; [|intros ?]
  | |- preserves _ (if ?b then _ else _) => destruct b
  | |- preserves _ (match ?x with _ => _ end) => destruct x
  | |- preserves _ (let _ := _ in _) => cbv zeta
  end.

Ltac keeps := repeat keeps_step.

Lemma one_notification_main_content_loop (q_data : list Row)
    (draws : list nat) :
  forall (sub_questions : list cell) (i : nat),
    preserves one_notification
      (main_content_loop q_data draws i sub_questions).
Proof.
  induction sub_questions as [|sq rest IH]; intros i;
    cbn [main_content_loop]; [apply preserves_ret|].
  apply preserves_bind; [apply preserves_get_sess | intros s].
  apply preserves_bind; [|intros _; apply IH].
  unfold set_current_order. keeps.
Qed.

Lemma one_notification_dispatch (df : DataFrame) (ev : event) :
  preserves one_notification (dispatch df ev).
Proof.
  destruct ev as [button_id|selected|question|i j|numeric units_answer|draws];
    cbn [dispatch].
  - apply preserves_run_observers. intros sec.
    unfold section_button_observer, reset_state, set_current_section,
      set_current_subq, set_show_solution, set_feedback_text,
      set_current_answer, set_current_units. keeps.
  - unfold section_nav_observer, reset_state, set_current_section,
      set_current_question, set_current_subq, set_show_solution,
      set_feedback_text, set_current_answer, set_current_units. keeps.
  - unfold question_observer, reset_state, set_current_question,
      set_current_subq, set_show_solution, set_feedback_text,
      set_current_answer, set_current_units. keeps.
  - apply preserves_run_observers. intros k.
    unfold option_observer, resolve_click, click_transition,
      set_current_subq. keeps.
  - unfold check_numeric, set_current_answer, set_current_units,
      set_show_solution, set_feedback_text. keeps.
  - unfold main_content. keeps.
    apply one_notification_main_content_loop.
Qed.

(** X8. In every run of events that finishes, from a world where the
    only notification on screen is the one remembered in
    [last_notification_id] (as in the initial world, which shows none),
    that is so again: at most one notification is on screen. *)
Theorem one_notification_run (df : DataFrame) (evs : list event) :
  forall w w',
    one_notification w ->
    run df evs w = Ok (tt, w') ->
    one_notification w' /\ length (visible (sent w')) <= 1.
Proof.
  assert (Hlen : forall w, one_notification w ->
                           length (visible (sent w)) <= 1).
  { intros w H. rewrite H. destruct (last_notification_id w); cbn; lia. }
  induction evs as [|ev evs IH]; intros w w' HI Hrun.
  - inversion Hrun; subst. auto.
  - cbn [run] in Hrun. unfold mbind, M_bind in Hrun.
    destruct (dispatch df ev w) as [[[] w1]|e] eqn:Hev; [|discriminate].
    apply (IH w1 w'); [|exact Hrun].
    exact (one_notification_dispatch df ev w tt w1 HI Hev).
Qed.

Lemma one_notification_run_witness :
  exists w',
    run kinematics
      [ClickSectionButton "section_button_Kinematics";
       SelectSectionNav "Kinematics"; RenderMainContent [];
       ClickOption 0 1; ClickOption 0 0;
       SubmitAnswer (Some (Fin 10)) "m/s"]
      initial_world = Ok (tt, w')
    /\ visible (sent w') = [3].
Proof.
  eexists. split; [vm_compute; reflexivity|].
  match goal with
  | |- visible (sent ?w1) = _ =>
      destruct (one_notification_run kinematics
                  [ClickSectionButton "section_button_Kinematics";
                   SelectSectionNav "Kinematics"; RenderMainContent [];
                   ClickOption 0 1; ClickOption 0 0;
                   SubmitAnswer (Some (Fin 10)) "m/s"]
                  initial_world w1 eq_refl eq_refl) as [Hone _]
  end.
  exact Hone.
Defined.

(** ** Button identifiers and section names *)

(** X9. [sanitize_id] keeps the length of a name, yields only letters,
    digits and underscores, leaves a name made of letters and digits as
    it is, and applied twice gives what it gives applied once. *)
Theorem sanitize_id_properties (name : string) :
  String.length (sanitize_id name) = String.length name /\
  Forall (fun c => isalnum c = true \/ c = "_"%char)
    (list_ascii_of_string (sanitize_id name)) /\
  (Forall (fun c => isalnum c = true) (list_ascii_of_string name) ->
   sanitize_id name = name) /\
  sanitize_id (sanitize_id name) = sanitize_id name.
Proof.
  unfold sanitize_id.
  induction name as [|c name (IHlen & IHall & IHid & IHtwice)];
    cbn [map_string String.length list_ascii_of_string].
  - repeat split; first [constructor | reflexivity].
  - repeat split.
    + rewrite IHlen. reflexivity.
    + constructor; [|exact IHall].
      destruct (isalnum c) eqn:E; [left; exact E | right; reflexivity].
    + intros Hall. apply Forall_cons in Hall. destruct Hall as [Hc Hall].
      rewrite Hc, (IHid Hall). reflexivity.
    + rewrite IHtwice. f_equal.
      destruct (isalnum c) eqn:E; [rewrite E; reflexivity | reflexivity].
Qed.

Lemma sanitize_id_properties_witness :
  sanitize_id "Kinematics" = "Kinematics".
Proof.
  destruct (sanitize_id_properties "Kinematics") as (_ & _ & Hkeep & _).
  apply Hkeep. repeat constructor.
Defined.

Lemma unique_from_spec (l : list cell) :
  forall (seen : list cell) (x : cell),
    x ∈ unique_from seen l <-> x ∈ l /\ x ∉ seen.
Proof.
  induction l as [|y l IH]; intros seen x; cbn [unique_from].
  - rewrite !elem_of_nil. tauto.
  - destruct (bool_decide (y ∈ seen)) eqn:Hy.
    + apply bool_decide_eq_true_1 in Hy. rewrite IH, elem_of_cons.
      split; [tauto|]. intros [[-> | H] Hs]; [contradiction | tauto].
    + apply bool_decide_eq_false_1 in Hy.
      rewrite !elem_of_cons, IH, not_elem_of_cons.
      destruct (decide (x = y)) as [-> | Hne]; [tauto|]. tauto.
Qed.

Lemma unique_from_NoDup (l : list cell) :
  forall seen : list cell, NoDup (unique_from seen l).
Proof.
  induction l as [|y l IH]; intros seen; cbn [unique_from];
    [constructor|].
  destruct (bool_decide (y ∈ seen)); [apply IH|].
  constructor; [|apply IH].
  rewrite unique_from_spec, not_elem_of_cons. tauto.
Qed.

(** X10. The section names of the landing page and of the menu are
    pairwise distinct, and they are exactly what [str] makes of the
    section cells of the rows of the dataset that are not missing. *)
Theorem sections_distinct_and_complete (df : DataFrame) :
  NoDup (sections df) /\
  forall s, s ∈ sections df
            <-> exists r x, r ∈ df /\ section r = Some x /\ astype_str x = s.
Proof.
  unfold sections, unique. split.
  - pose proof (unique_from_NoDup
                  (map (fmap astype_str) (dropna (map section df))) [])
      as Hnd.
    induction Hnd as [|x l Hx Hnd IH]; [constructor|].
    destruct x as [a|]; cbn [omap]; [|exact IH].
    constructor; [|exact IH].
    intros Ha. apply list_elem_of_omap in Ha.
    destruct Ha as ([b|] & Hb & Hid); [|discriminate].
    cbn in Hid. injection Hid as ->. contradiction.
  - intros s. rewrite list_elem_of_omap. split.
    + intros ([a|] & Ha & Hid); [|discriminate]. cbn in Hid.
      injection Hid as ->. apply unique_from_spec in Ha.
      destruct Ha as [Ha _]. apply list_elem_of_In, in_map_iff in Ha.
      destruct Ha as ([x|] & Hx & Ha); [|discriminate].
      injection Hx as Hx. apply filter_In in Ha.
      destruct Ha as [Ha _]. apply in_map_iff in Ha.
      destruct Ha as (r & Hr & Hin). exists r, x.
      split; [apply list_elem_of_In; exact Hin | auto].
    + intros (r & x & Hin & Hr & Hx). exists (Some s). split; [|reflexivity].
      apply unique_from_spec. split; [|apply not_elem_of_nil].
      apply list_elem_of_In, in_map_iff. exists (Some x).
      split; [cbn; rewrite Hx; reflexivity|].
      apply filter_In. split; [|reflexivity].
      apply in_map_iff. exists r.
      split; [exact Hr | apply list_elem_of_In; exact Hin].
Qed.

(** ** The landing page and the question tabs *)

Lemma section_buttons_last (button_id : string) :
  forall (registered : list string) (w : World),
    exists w',
      run_observers (fun s => String.eqb (section_button_id s) button_id)
        section_button_observer registered w = Ok (tt, w')
      /\ match last (List.filter
                       (fun s => String.eqb (section_button_id s) button_id)
                       registered) with
         | None => w' = w
         | Some sec =>
             sess w' = picked (sess w) sec (current_question (sess w))
             /\ is_section_selected w' = true
         end.
Proof.
  induction registered as [|k ks IH]; intros w.
  - exists w. split; reflexivity.
  - cbn [run_observers List.filter]. unfold mbind, M_bind.
    destruct (String.eqb (section_button_id k) button_id).
    + rewrite section_button_observer_run.
      match goal with
      | |- exists w', run_observers _ _ _ ?w1 = _ /\ _ =>
          destruct (IH w1) as (w' & Hrun & Hlast)
      end.
      exists w'. split; [exact Hrun|]. rewrite last_cons.
      destruct (last (List.filter _ ks)) as [sec|].
      * destruct Hlast as [Hsess Hsel]. split; [|exact Hsel].
        rewrite Hsess. reflexivity.
      * subst w'. split; reflexivity.
    + unfold mret, M_ret. apply IH.
Qed.

(** X11. A press on a landing-page button never raises.  When no section
    of the dataset has that button identifier, nothing changes.
    Otherwise the last such section becomes the current one, the
    landing page is left, and the step, solution flag, feedback, stored
    answer and units are reset, while the current question and the
    stored cards stay as they were. *)
Theorem section_button_press (df : DataFrame) (button_id : string)
    (w : World) :
  exists w', dispatch df (ClickSectionButton button_id) w = Ok (tt, w') /\
    match last (List.filter
                  (fun s => String.eqb (section_button_id s) button_id)
                  (sections df)) with
    | None => w' = w
    | Some sec =>
        sess w' = picked (sess w) sec (current_question (sess w))
        /\ is_section_selected w' = true
    end.
Proof. cbn [dispatch]. apply section_buttons_last. Qed.

Lemma drop_duplicates_keys (key : Row -> cell) (l : list Row) :
  forall seen : list cell,
    map key (drop_duplicates_from key seen l) = unique_from seen (map key l).
Proof.
  induction l as [|r l IH]; intros seen;
    cbn [drop_duplicates_from unique_from map]; [reflexivity|].
  destruct (bool_decide (key r ∈ seen)); [apply IH|].
  cbn [map]. rewrite IH. reflexivity.
Qed.

(** X12. After a section name of the dataset, not empty, has been picked
    in the menu, [question_nav] shows one tab for each distinct
    [question_number] of the rows whose section cell is that name, in
    first-seen order, and selects the tab of the current question.  When
    there are such rows, the first tab carries the current question as
    its value; when there is none (the names of a column read as numbers
    are section names, and no cell of the column is equal to one), there
    is no tab and the current question is empty. *)
Theorem question_nav_after_section (df : DataFrame) (w : World)
    (selected : string) :
  selected ∈ sections df ->
  selected <> "" ->
  exists w' tabs,
    section_nav_observer df selected w = Ok (tt, w') /\
    question_nav df (sess w') = Some (tabs, current_question (sess w')) /\
    map fst tabs
    = map html (unique (map question_number (rows_of_section df selected))) /\
    match rows_of_section df selected with
    | [] => tabs = [] /\ current_question (sess w') = Some ""
    | r :: _ =>
        exists more,
          tabs = (html (question_number r), current_question (sess w')) :: more
    end.
Proof.
  intros Hsel Hne. rewrite section_nav_observer_run.
  rewrite bool_decide_eq_true_2 by exact Hsel.
  assert (Hfalsy : falsy selected = false).
  { unfold falsy. apply String.eqb_neq. exact Hne. }
  unfold opening_question.
  destruct (rows_of_section df selected) as [|r rest] eqn:E.
  - eexists. exists []. split; [reflexivity|].
    unfold question_nav.
    cbn [sess picked current_section current_question].
    rewrite Hfalsy, E. repeat split; reflexivity.
  - eexists.
    exists (map (fun row => (html (question_number row), main_question row))
              (drop_duplicates question_number (r :: rest))).
    split; [reflexivity|].
    unfold question_nav.
    cbn [sess picked current_section current_question].
    rewrite Hfalsy, E. split; [reflexivity|]. split.
    + unfold drop_duplicates, unique.
      rewrite <- (drop_duplicates_keys question_number (r :: rest) []).
      rewrite !List.map_map. reflexivity.
    + rewrite drop_duplicates_cons. cbn [map]. eexists. reflexivity.
Qed.

Lemma question_nav_after_section_witness :
  exists w' tabs,
    section_nav_observer kinematics "Kinematics" initial_world = Ok (tt, w') /\
    question_nav kinematics (sess w') = Some (tabs, current_question (sess w'))
    /\ map fst tabs = ["1"]
    /\ exists more, tabs = ("1", current_question (sess w')) :: more.
Proof.
  apply (question_nav_after_section kinematics initial_world "Kinematics").
  - vm_compute. apply list_elem_of_here.
  - discriminate.
Defined.

(** On the dataset [by_year] the section names are the years as texts,
    and picking one finds no row: no question is opened and no tab is
    shown. *)
Example numeric_section_column :
  sections by_year = ["2024"; "2025"] /\
  rows_of_section by_year "2024" = [] /\
  exists w', section_nav_observer by_year "2024" initial_world = Ok (tt, w') /\
    current_section (sess w') = "2024" /\
    current_question (sess w') = Some "" /\
    question_nav by_year (sess w') = Some ([], Some "").
Proof.
  split; [vm_compute; reflexivity|]. split; [reflexivity|].
  eexists. split; [vm_compute; reflexivity|]. repeat split.
Qed.

(** ** Sessions driven from the page *)

Lemma main_content_eq (df : DataFrame) (draws : list nat) (w : World) :
  main_content df draws w
  = if falsy (current_section (sess w))
       || falsy_cell (current_question (sess w))
    then Ok (tt, w)
    else
      match sub_questions_of df (sess w) !! current_subq (sess w) with
      | None => send (RenderMath SelMarkdownContent) w
      | Some sq =>
          match build_options (current_subq (sess w))
                  (rows_of_step
                     (rows_of_question df (current_section (sess w))
                        (current_question (sess w))) sq) (seq 0 4) with
          | Ok options => Ok (tt, rendered w (shuffle draws options))
          | Raise e => Raise e
          end
      end.
Proof.
  unfold main_content, sub_questions_of.
  unfold mbind at 1, M_bind, get_sess.
  destruct (falsy (current_section (sess w))
            || falsy_cell (current_question (sess w))); [reflexivity|].
  unfold mbind at 1, M_bind. rewrite main_content_loop_run.
  cbn [Nat.leb]. rewrite Nat.sub_0_r.
  destruct (unique _ !! current_subq (sess w)) as [sq|]; [|reflexivity].
  destruct (build_options _ _ _) as [options|e]; reflexivity.
Qed.

Lemma rows_of_question_subset (df : DataFrame) (sec : string) (q : cell)
    (r : Row) :
  In r (rows_of_question df sec q) ->
  In r df /\ section r = Some (Text sec) /\ main_question r = q.
Proof.
  unfold rows_of_question. rewrite filter_In, andb_true_iff.
  intros (Hin & Hsec & Hq). split; [exact Hin|].
  apply section_eq_spec in Hsec. split; [exact Hsec|].
  unfold cell_eq in Hq. destruct (main_question r) as [a|], q as [b|];
    try discriminate.
  apply String.eqb_eq in Hq. congruence.
Qed.

Lemma rows_of_step_found (q_data : list Row) (sq : cell) :
  sq ∈ unique (map sub_question q_data) ->
  sq <> None ->
  exists r rest, rows_of_step q_data sq = r :: rest /\ In r q_data.
Proof.
  intros Hin Hsome. apply unique_from_spec in Hin. destruct Hin as [Hin _].
  apply list_elem_of_In, in_map_iff in Hin. destruct Hin as (r0 & Hr0 & Hin0).
  destruct sq as [name|]; [|contradiction].
  assert (Hf : In r0 (rows_of_step q_data (Some name))).
  { unfold rows_of_step. apply filter_In. split; [exact Hin0|].
    apply cell_eq_spec. exact Hr0. }
  destruct (rows_of_step q_data (Some name)) as [|r rest] eqn:E;
    [destruct Hf|].
  exists r, rest. split; [reflexivity|].
  assert (Hr : In r (rows_of_step q_data (Some name)))
    by (rewrite E; left; reflexivity).
  unfold rows_of_step in Hr. apply filter_In in Hr. tauto.
Qed.

Lemma keyed_no_empty_names (df : DataFrame) (sec : string) (q : cell) :
  keyed df ->
  falsy sec || falsy_cell q = true ->
  rows_of_question df sec q = [].
Proof.
  intros Hkey Hfalsy.
  destruct (rows_of_question df sec q) as [|r rest] eqn:E; [reflexivity|].
  assert (Hr : In r (rows_of_question df sec q))
    by (rewrite E; left; reflexivity).
  apply rows_of_question_subset in Hr. destruct Hr as (Hin & Hsec & Hq).
  unfold keyed in Hkey. rewrite Forall_forall in Hkey.
  destruct (Hkey r (proj2 (list_elem_of_In _ _) Hin)) as (Hs & Hm & _).
  apply orb_true_iff in Hfalsy. destruct Hfalsy as [H | H].
  - unfold falsy in H. apply String.eqb_eq in H. subst sec. contradiction.
  - destruct q as [name|]; [|discriminate].
    unfold falsy_cell, falsy in H. apply String.eqb_eq in H. subst name.
    contradiction.
Qed.

Lemma keyed_no_bad_bound (df : DataFrame) (s : Session)
    (numeric_answer : option pynum) :
  keyed df -> ~ bad_bound df s numeric_answer.
Proof.
  intros Hkey (v & r & rest & _ & Hrows & Hbad).
  assert (Hr : In r (rows_of_question df (current_section s)
                       (current_question s)))
    by (rewrite Hrows; left; reflexivity).
  apply rows_of_question_subset in Hr. destruct Hr as (Hr & _).
  unfold keyed in Hkey. rewrite Forall_forall in Hkey.
  destruct (Hkey r (proj2 (list_elem_of_In _ _) Hr))
    as (_ & _ & _ & _ & [lo Hlo] & [hi Hhi]).
  destruct Hbad as [[text Hbad] | [text Hbad]]; congruence.
Qed.

Lemma in_sync_same (df : DataFrame) (w w' : World) :
  nav (sess w') = nav (sess w) ->
  current_order (sess w') = current_order (sess w) ->
  in_sync df w -> in_sync df w'.
Proof.
  unfold in_sync, nav, sub_questions_of. intros Hnav Horder.
  injection Hnav as Hsec Hq Hsubq. rewrite Hsec, Hq, Hsubq, Horder.
  exact (fun H => H).
Qed.

Lemma render_in_sync (df : DataFrame) (draws : list nat) (w : World) :
  keyed df ->
  exists w', main_content df draws w = Ok (tt, w') /\ in_sync df w'.
Proof.
  intros Hkey. rewrite main_content_eq.
  destruct (falsy (current_section (sess w))
            || falsy_cell (current_question (sess w))) eqn:Hfalsy.
  - exists w. split; [reflexivity|].
    unfold in_sync, sub_questions_of.
    rewrite (keyed_no_empty_names df _ _ Hkey Hfalsy). exact I.
  - destruct (sub_questions_of df (sess w) !! current_subq (sess w))
      as [sq|] eqn:Hsq.
    + assert (Hin : sq ∈ sub_questions_of df (sess w))
        by (eapply list_elem_of_lookup_2; exact Hsq).
      assert (Hsome : sq <> None).
      { pose proof Hin as Hin'. unfold sub_questions_of in Hin'.
        apply unique_from_spec in Hin'. destruct Hin' as [Hin' _].
        apply list_elem_of_In, in_map_iff in Hin'.
        destruct Hin' as (r0 & Hr0 & Hin0).
        apply rows_of_question_subset in Hin0. destruct Hin0 as (Hin0 & _).
        unfold keyed in Hkey. rewrite Forall_forall in Hkey.
        destruct (Hkey r0 (proj2 (list_elem_of_In _ _) Hin0))
          as (_ & _ & Hsq0 & _).
        congruence. }
      destruct (rows_of_step_found _ sq Hin Hsome) as (r & rest & Hrows & Hr).
      rewrite Hrows, build_options_row.
      eexists. split; [reflexivity|].
      unfold in_sync, rendered. cbv zeta.
      unfold sub_questions_of in *.
      cbn [sess current_order current_section current_question
           current_subq].
      rewrite Hsq. rewrite shuffle_Permutation.
      pose proof (cards_of_row (current_subq (sess w)) r) as Hcards.
      rewrite Forall_forall in Hcards. apply Forall_forall.
      intros v Hv. exists r, rest. split; [exact Hrows|].
      split; [apply Hcards; exact Hv|].
      intros Hnone. apply rows_of_question_subset in Hr.
      destruct Hr as (Hr & _).
      unfold keyed in Hkey. rewrite Forall_forall in Hkey.
      destruct (Hkey r (proj2 (list_elem_of_In _ _) Hr))
        as (_ & _ & _ & Hshown & _).
      specialize (Hshown Hnone).
      rewrite <- (cards_columns (current_subq (sess w)) r) in Hshown.
      destruct (cards (current_subq (sess w)) r);
        [apply elem_of_nil in Hv; exact Hv | discriminate].
    + eexists. split; [reflexivity|].
      unfold in_sync. cbv zeta. cbn [sess]. rewrite Hsq. exact I.
Qed.

Lemma run_observers_one_total {K : Type} (hit : K -> bool)
    (obs : K -> M unit) (k : K) :
  (forall k', hit k' = true -> k' = k) ->
  forall (registered : list K) (w : World),
    NoDup registered ->
    (exists w1, obs k w = Ok (tt, w1)) ->
    exists w', run_observers hit obs registered w = Ok (tt, w').
Proof.
  intros Hk. induction registered as [|x xs IH]; intros w Hnd Hobs.
  - exists w. reflexivity.
  - apply NoDup_cons in Hnd. destruct Hnd as [Hx Hnd].
    cbn [run_observers]. unfold mbind, M_bind.
    destruct (hit x) eqn:Hhit.
    + apply Hk in Hhit. subst x. destruct Hobs as [w1 Hobs].
      rewrite Hobs. exists w1. apply run_observers_miss.
      apply Forall_forall. intros y Hy.
      destruct (hit y) eqn:Hy'; [|reflexivity].
      apply Hk in Hy'. subst y. contradiction.
    + unfold mret, M_ret. apply IH; assumption.
Qed.

Lemma option_observer_in_sync (df : DataFrame) (j : nat) (w : World) :
  in_sync df w ->
  exists w', option_observer df (current_subq (sess w)) j w = Ok (tt, w').
Proof.
  fields w. unfold in_sync, sub_questions_of. cbv zeta.
  cbn [sess current_order current_section current_question current_subq].
  intros Hsync.
  unfold option_observer, resolve_click, click_transition,
    show_new_notification, iloc0.
  run_M_fields.
  destruct (unique (map sub_question (rows_of_question df sec q)) !! subq)
    as [sq|]; [|eexists; reflexivity].
  destruct (order !! j) as [clicked|] eqn:Hj; [|eexists; reflexivity].
  rewrite Forall_forall in Hsync.
  destruct (Hsync clicked (list_elem_of_lookup_2 _ _ _ Hj))
    as (r & rest & Hrows & Hcard & Hkey).
  destruct Hcard as (_ & _ & _ & Hfb & _).
  rewrite Hrows, Hfb.
  destruct (correct_option r) as [c|]; [|contradiction].
  unfold na_eq, truth.
  destruct (Z.of_nat (original_index clicked) =? c)%Z; cbn [andb].
  - destruct (subq <? _); destruct lid; eexists; reflexivity.
  - destruct lid; eexists; reflexivity.
Qed.

Lemma run_observers_hit {K : Type} (hit : K -> bool) (obs : K -> M unit)
    (k : K) :
  hit k = true ->
  (forall k', hit k' = true -> k' = k) ->
  forall (registered : list K) (w : World),
    NoDup registered -> k ∈ registered ->
    run_observers hit obs registered w = obs k w.
Proof.
  intros Hhit Hk. induction registered as [|x xs IH]; intros w Hnd Hin.
  - apply elem_of_nil in Hin. destruct Hin.
  - apply NoDup_cons in Hnd. destruct Hnd as [Hx Hnd].
    cbn [run_observers]. unfold mbind, M_bind.
    destruct (hit x) eqn:Hhx.
    + apply Hk in Hhx. subst x.
      destruct (obs k w) as [[[] w1]|e]; [|reflexivity].
      apply run_observers_miss. apply Forall_forall. intros y Hy.
      destruct (hit y) eqn:Hy'; [|reflexivity].
      apply Hk in Hy'. subst y. contradiction.
    + unfold mret, M_ret. apply IH; [exact Hnd|].
      apply elem_of_cons in Hin. destruct Hin as [-> | Hin]; [|exact Hin].
      congruence.
Qed.

(** X17. A press on card [j] of the current step, when the stored cards
    are those of that step and the step is one of the ten with
    observers: the card is right or wrong, never undecided; a right card
    on a step before the last one moves the step index up by one and
    sends the progress notification; a right card on the last step
    leaves the session and sends the enter-final-answer notification; a
    wrong card leaves the session and sends the feedback of that card as
    a warning. *)
Theorem click_on_current_step (df : DataFrame) (w : World) (j : nat)
    (clicked : OptionView) :
  let s := sess w in
  let last := length (sub_questions_of df s) - 1 in
  in_sync df w ->
  current_subq s < length (sub_questions_of df s) ->
  current_subq s < 10 ->
  j < 4 ->
  current_order s !! j = Some clicked ->
  is_correct clicked <> PdNA /\
  exists w', dispatch df (ClickOption (current_subq s) j) w = Ok (tt, w') /\
    (is_correct clicked = PyTrue -> current_subq s < last ->
       sess w' = advanced s /\
       sent w' = NotificationShow "Correct! Moving to next step." 3 "message"
                   (notification_count w)
                 :: retract w
                 ++ RenderMath (SelSubq (current_subq s + 1)) :: sent w) /\
    (is_correct clicked = PyTrue -> last <= current_subq s ->
       sess w' = s /\
       sent w' = NotificationShow "Correct! Please enter your final answer."
                   3 "message" (notification_count w)
                 :: retract w ++ sent w) /\
    (is_correct clicked = PyFalse ->
       sess w' = s /\
       sent w' = RenderMath SelFeedbackMessage
                 :: NotificationShow (html (feedback clicked)) 5 "warning"
                      (notification_count w)
                 :: retract w ++ sent w).
Proof.
  intros s last Hsync Hstep Hten Hj Hclicked. subst s last.
  destruct (lookup_lt_is_Some_2 _ _ Hstep) as [sq Hsq].
  unfold in_sync in Hsync. cbv zeta in Hsync. rewrite Hsq in Hsync.
  rewrite Forall_forall in Hsync.
  destruct (Hsync clicked (list_elem_of_lookup_2 _ _ _ Hclicked))
    as (r & rest & Hrows & Hcard & Hkey).
  destruct Hcard as (_ & _ & _ & Hfb & Hcorrect).
  destruct (correct_option r) as [c|] eqn:Hc; [|contradiction].
  set (b := (Z.of_nat (original_index clicked) =? c)%Z).
  assert (Htruth : truth (na_eq (original_index clicked) (correct_option r))
                   = Ok b).
  { rewrite Hc. unfold na_eq. fold b. destruct b; reflexivity. }
  assert (Hjudged : is_correct clicked = if b then PyTrue else PyFalse).
  { rewrite Hcorrect. unfold na_eq. fold b. reflexivity. }
  split; [rewrite Hjudged; destruct b; discriminate|].
  destruct (option_observer_branches df w (current_subq (sess w)) j sq
              clicked r rest (feedback clicked) b Hsq Hclicked Hrows Hfb
              Htruth) as (w' & Hrun & Hadv & Hlast & Hwrong).
  exists w'. split.
  - cbn [dispatch].
    rewrite (run_observers_hit _ _ (current_subq (sess w), j)).
    + exact Hrun.
    + cbn [fst snd]. rewrite !Nat.eqb_refl. reflexivity.
    + intros [i' j'] Hhit. cbn [fst snd] in Hhit.
      apply andb_true_iff in Hhit. destruct Hhit as [Hi' Hj'].
      apply Nat.eqb_eq in Hi', Hj'. congruence.
    + apply option_observers_NoDup.
    + apply option_observers_spec. lia.
  - rewrite Hjudged. destruct b.
    + split; [intros _ Hlt; exact (Hadv eq_refl Hlt)|].
      split; [intros _ Hge; exact (Hlast eq_refl Hge)|].
      intros H. discriminate H.
    + split; [intros H; discriminate H|].
      split; [intros H; discriminate H|].
      intros _. exact (Hwrong eq_refl).
Qed.

Lemma click_on_current_step_witness :
  exists w', dispatch gait (ClickOption 0 0) on_gait_shown = Ok (tt, w') /\
    sess w' = sess on_gait_shown /\
    hd_error (sent w')
    = Some (RenderMath SelFeedbackMessage).
Proof.
  destruct (click_on_current_step gait on_gait_shown 0
              (mkOption (Markdown 0 1 "swing") "swing"
                 (Some "The foot is on the ground.") 1 2 PyFalse))
    as (_ & w' & Hrun & _ & _ & Hwrong).
  - unfold in_sync. cbv zeta.
    change (sub_questions_of gait (sess on_gait_shown)
            !! current_subq (sess on_gait_shown))
      with (Some (Some "Pick the phase")).
    repeat constructor; exists gait_step1, [];
      (split; [reflexivity|]); (split; [|discriminate]);
      repeat split; cbn; lia.
  - vm_compute. lia.
  - vm_compute. lia.
  - lia.
  - reflexivity.
  - exists w'. split; [exact Hrun|].
    destruct (Hwrong eq_refl) as [Hs Hsent]. split; [exact Hs|].
    rewrite Hsent. reflexivity.
Defined.

Lemma session_change_keeps_order (df : DataFrame) (ev : event)
    (s s' : Session) :
  session_change df ev s s' ->
  (forall draws, ev <> RenderMainContent draws) ->
  current_order s' = current_order s.
Proof.
  intros Hch Hev. destruct Hch; try reflexivity.
  exfalso. eapply Hev. reflexivity.
Qed.

Lemma ui_step_in_sync (df : DataFrame) (e : ui_event) (again : bool)
    (draws : list nat) (w : World) :
  keyed df ->
  in_sync df w ->
  exists w', ui_step df e again draws w = Ok (tt, w') /\ in_sync df w'.
Proof.
  intros Hkey Hsync. unfold ui_step.
  unfold mbind at 1, M_bind, get_sess.
  assert (Hev : exists w1,
             dispatch df (event_of (sess w) e) w = Ok (tt, w1)).
  { destruct e as [button_id|selected|question|j|numeric units_answer];
      cbn [event_of dispatch].
    - destruct (section_buttons_last button_id (sections df) w)
        as (w1 & Hrun & _). eauto.
    - rewrite section_nav_observer_run. eauto.
    - rewrite question_observer_run. eauto.
    - apply (run_observers_one_total _ _ (current_subq (sess w), j)).
      + intros [i' j'] Hhit. cbn [fst snd] in Hhit.
        apply andb_true_iff in Hhit. destruct Hhit as [Hi Hj].
        apply Nat.eqb_eq in Hi, Hj. congruence.
      + apply option_observers_NoDup.
      + cbn [fst snd]. apply option_observer_in_sync. exact Hsync.
    - pose proof (check_numeric_change df numeric units_answer w) as Hch.
      destruct (check_numeric df numeric units_answer w) as [[[] w1]|err];
        [eauto|].
      destruct Hch as [Hbad _].
      destruct (keyed_no_bad_bound df (sess w) numeric Hkey Hbad). }
  destruct Hev as [w1 Hev].
  unfold mbind at 1, M_bind. rewrite Hev.
  unfold mbind at 1, M_bind, get_sess.
  destruct (again || negb (nav_eqb (nav (sess w)) (nav (sess w1))))
    eqn:Hrender.
  - apply render_in_sync. exact Hkey.
  - exists w1. split; [reflexivity|].
    apply orb_false_iff in Hrender. destruct Hrender as [_ Hnav].
    apply negb_false_iff in Hnav. unfold nav_eqb in Hnav.
    apply bool_decide_eq_true_1 in Hnav.
    apply (in_sync_same df w w1); [symmetry; exact Hnav | | exact Hsync].
    apply (session_change_keeps_order df (event_of (sess w) e)).
    + apply dispatch_session_change. exact Hev.
    + intros draws0. destruct e; discriminate.
Qed.

(** X13. On a dataset without empty section or question names, in which
    every step has a text, every row that shows an option card names
    its correct option, and [min_value] and [max_value] are numbers in
    every row, no session driven from the page ever raises: a
    run of user events (button, menu, tab, card of the current step,
    submit), each followed by the render of the step when a value it
    reads changed and possibly otherwise, finishes, whatever the events
    and the draws of the shuffles. *)
Theorem ui_run_never_raises (df : DataFrame)
    (steps : list (ui_event * bool * list nat)) :
  keyed df ->
  forall w, in_sync df w ->
  exists w', ui_run df steps w = Ok (tt, w') /\ in_sync df w'.
Proof.
  intros Hkey. induction steps as [|[[e again] draws] rest IH];
    intros w Hsync.
  - exists w. split; [reflexivity | exact Hsync].
  - cbn [ui_run]. unfold mbind, M_bind.
    destruct (ui_step_in_sync df e again draws w Hkey Hsync)
      as (w1 & Hstep & Hsync1).
    rewrite Hstep. apply IH. exact Hsync1.
Qed.

Lemma kinematics_keyed : keyed kinematics.
Proof.
  unfold keyed, kinematics.
  repeat constructor; try discriminate; try (eexists; reflexivity);
    intros H; try discriminate H; reflexivity.
Qed.

Lemma ui_run_never_raises_witness :
  exists w',
    ui_run kinematics
      [(PickSection "Kinematics", false, [5; 2]);
       (PressCard 1, false, []);
       (PressCard 0, true, [1; 1]);
       (PressCard 2, false, []);
       (PressSubmit (Some (Fin 10)) "m/s", false, [])]
      initial_world = Ok (tt, w')
    /\ in_sync kinematics w'.
Proof.
  apply (ui_run_never_raises kinematics).
  - exact kinematics_keyed.
  - unfold in_sync. cbv zeta.
    destruct (sub_questions_of kinematics (sess initial_world)
              !! current_subq (sess initial_world)); [constructor | exact I].
Defined.

(** ** Submissions and picks that find nothing *)

(** X14. A submission never changes the section, the question, the step
    or the stored cards.  With a number it stores the number and the
    units, whatever the verdict; without a number it only empties the
    feedback, so that a solution already shown stays shown. *)
Theorem submit_effect (df : DataFrame) (numeric_answer : option pynum)
    (units_answer : string) (w w' : World) :
  dispatch df (SubmitAnswer numeric_answer units_answer) w = Ok (tt, w') ->
  nav (sess w') = nav (sess w) /\
  current_order (sess w') = current_order (sess w) /\
  (forall v, numeric_answer = Some v ->
     current_answer (sess w') = Some v /\
     current_units (sess w') = units_answer) /\
  (numeric_answer = None ->
     feedback_text (sess w') = "" /\
     show_solution (sess w') = show_solution (sess w) /\
     current_answer (sess w') = current_answer (sess w) /\
     current_units (sess w') = current_units (sess w) /\
     sent w' = sent w).
Proof.
  cbn [dispatch]. fields w. unfold check_numeric, show_new_notification.
  destruct numeric_answer as [v|]; run_M_fields.
  - destruct (rows_of_question df sec q) as [|r rest].
    + intros H. inversion H; subst w'.
      cbn [sess sent nav current_order current_section current_question
           current_subq current_answer current_units].
      repeat split; intros; try discriminate; congruence.
    + destruct (float (min_value r)) as [lo|err]; [|discriminate].
      destruct (float (max_value r)) as [hi|err]; [|discriminate].
      destruct (range_check lo v hi),
        (units_check units_answer (units r)); cbn [andb negb];
        destruct lid; intros H; inversion H; subst w';
        cbn [sess sent nav current_order current_section current_question
             current_subq current_answer current_units];
        repeat split; intros; try discriminate; congruence.
  - intros H. inversion H; subst w'.
    cbn [sess sent nav current_order current_section current_question
         current_subq current_answer current_units show_solution
         feedback_text].
    repeat split; discriminate.
Qed.

Lemma submit_effect_witness :
  exists w', dispatch kinematics (SubmitAnswer None "m/s") on_Q9 = Ok (tt, w')
    /\ feedback_text (sess w') = ""
    /\ nav (sess w') = nav (sess on_Q9).
Proof.
  eexists. split; [vm_compute; reflexivity|].
  match goal with
  | |- feedback_text (sess ?w1) = _ /\ _ =>
      destruct (submit_effect kinematics None "m/s" on_Q9 w1 eq_refl)
        as (Hnav & _ & _ & Hnone)
  end.
  split; [apply Hnone; reflexivity | exact Hnav].
Defined.

(** X15. Picking in the menu a name that is no section of the dataset
    changes nothing of the session; and every pick in the menu, found or
    not, raises nothing, shows no notification, ends the first load, and
    collapses the menu exactly when the first load was already over. *)
Theorem section_nav_not_found (df : DataFrame) (selected : string)
    (w : World) :
  exists w', dispatch df (SelectSectionNav selected) w = Ok (tt, w') /\
    (~ selected ∈ sections df -> sess w' = sess w) /\
    initial_load w' = false /\
    last_notification_id w' = last_notification_id w /\
    sent w' = if initial_load w then sent w else CollapseNavbar :: sent w.
Proof.
  cbn [dispatch]. rewrite section_nav_observer_run.
  eexists. split; [reflexivity|].
  cbn [sess initial_load last_notification_id sent].
  repeat split. intros Hnot.
  rewrite bool_decide_eq_false_2 by exact Hnot. reflexivity.
Qed.

Lemma section_nav_not_found_witness :
  exists w', dispatch kinematics (SelectSectionNav "Statics") on_Q1
             = Ok (tt, w') /\
    sess w' = sess on_Q1.
Proof.
  destruct (section_nav_not_found kinematics "Statics" on_Q1)
    as (w' & Hrun & Hsame & _).
  exists w'. split; [exact Hrun|]. apply Hsame.
  vm_compute. intros H. apply elem_of_cons in H.
  destruct H as [H | H]; [discriminate H | apply elem_of_nil in H; exact H].
Defined.

(** X16. A question that the current section does not have can still be
    picked: it becomes the current question.  A number submitted then is
    stored but gets no verdict: the solution stays hidden and the
    feedback stays empty, and no notification is shown. *)
Theorem unknown_question_dead_end (df : DataFrame) (question : string)
    (v : pynum) (units_answer : string) (w : World) :
  question <> "" ->
  rows_of_question df (current_section (sess w)) (Some question) = [] ->
  exists w',
    run df [SelectQuestion question; SubmitAnswer (Some v) units_answer] w
    = Ok (tt, w') /\
    current_question (sess w') = Some question /\
    current_answer (sess w') = Some v /\
    show_solution (sess w') = false /\
    feedback_text (sess w') = "" /\
    sent w' = sent w.
Proof.
  intros Hne Hrows. cbn [run dispatch]. unfold mbind, M_bind.
  rewrite question_observer_run.
  assert (Hfalsy : falsy question = false).
  { unfold falsy. apply String.eqb_neq. exact Hne. }
  rewrite Hfalsy. fields w. cbn [sess current_section] in Hrows.
  unfold check_numeric, picked. run_M_fields. rewrite Hrows.
  eexists. split; [reflexivity|]. repeat split.
Qed.

Lemma unknown_question_dead_end_witness :
  exists w',
    run kinematics [SelectQuestion "Q7"; SubmitAnswer (Some (Fin 10)) "m/s"]
      on_Q1 = Ok (tt, w') /\
    show_solution (sess w') = false /\ feedback_text (sess w') = "".
Proof.
  destruct (unknown_question_dead_end kinematics "Q7" (Fin 10) "m/s" on_Q1)
    as (w' & Hrun & _ & _ & Hshow & Hfb & _);
    [discriminate | reflexivity |].
  exists w'. repeat split; assumption.
Defined.
